(** * SLIP high-level analyzer: a shallow embedding of [HighLevelAnalyzer.py]

    The analyzer attaches to an Async Serial analyzer, reads the decoded
    bytes, undoes the SLIP framing (END 0xC0, ESC 0xDB and the two escape
    continuations) and emits one [AnalyzerFrame] per SLIP packet or stream
    error.  The Python object's fields become a record threaded through the
    functions; the host classes [AnalyzerFrame] and [SaleaeTime] become a
    record and a type class. *)

From Stdlib Require Import ZArith Lia Ascii String.
From stdpp Require Import base list strings gmap.

Local Open Scope string_scope.
Local Open Scope list_scope.
Local Open Scope Z_scope.

(** ** Constants of the module *)

Definition END : Z := 0xC0.
Definition ESC : Z := 0xDB.
Definition ESC_END : Z := 0xDC.
Definition ESC_ESC : Z := 0xDD.

(** ** Host types

    Timestamps are [SaleaeTime] objects of the host.  The analyzer never
    computes with them; it only stores them, tests the stored one against
    [None] and asks for its truth value ([x if x else y]).  The class keeps
    the type and that truth value abstract. *)

Class SaleaeTime (Time : Type) := {
  time_truthy : Time -> bool
}.

(** Values the analyzer stores in the [data] dictionary of an emitted
    frame: strings and integers. *)
Inductive value : Type :=
  | VStr (s : string)
  | VInt (n : Z).

(** An input frame of the Async Serial analyzer.  [data] is the frame's
    dictionary; under the key "data" it holds the decoded bytes, a
    bytearray or a list of integers. *)
Record SerialFrame (Time : Type) := {
  in_type : string;
  in_start_time : Time;
  in_end_time : Time;
  in_data : gmap string (list Z)
}.
Arguments in_type {Time} _.
Arguments in_start_time {Time} _.
Arguments in_end_time {Time} _.
Arguments in_data {Time} _.

(** [AnalyzerFrame(type, start_time, end_time, data)] as the analyzer
    constructs it. *)
Record AnalyzerFrame (Time : Type) := {
  type : string;
  start_time : Time;
  end_time : Time;
  data : gmap string value
}.
Arguments Build_AnalyzerFrame {Time} _ _ _ _.
Arguments type {Time} _.
Arguments start_time {Time} _.
Arguments end_time {Time} _.
Arguments data {Time} _.

(** The fields [_reset_state] initialises: the analyzer's whole state. *)
Record Hla (Time : Type) := {
  escape : bool;
  buffer : list Z;
  frame_start_time : option Time
}.
Arguments Build_Hla {Time} _ _ _.
Arguments escape {Time} _.
Arguments buffer {Time} _.
Arguments frame_start_time {Time} _.

(** ** Rendering of the payload *)

(** One uppercase hexadecimal digit. *)
Definition hex_digit (d : Z) : ascii :=
  match d with
  | 0 => "0" | 1 => "1" | 2 => "2" | 3 => "3"
  | 4 => "4" | 5 => "5" | 6 => "6" | 7 => "7"
  | 8 => "8" | 9 => "9" | 10 => "A" | 11 => "B"
  | 12 => "C" | 13 => "D" | 14 => "E" | _ => "F"
  end%char.

(** [f'{b:02X}'] for an element [b] of a bytearray (0..255): exactly two
    uppercase hexadecimal digits. *)
Definition format_02X (b : Z) : string :=
  String (hex_digit (b / 16)) (String (hex_digit (b mod 16)) EmptyString).

(** [' '.join(f'{b:02X}' for b in payload)]. *)
Definition payload_hex (payload : list Z) : string :=
  String.concat " " (map format_02X payload).

(** The result of SLIP-encoding a payload, as a sender does it: the
    reference the decoder is compared with. *)
Definition slip_escape (b : Z) : list Z :=
  if b =? END then [ESC; ESC_END]
  else if b =? ESC then [ESC; ESC_ESC]
  else [b].

Definition slip_encode (payload : list Z) : list Z :=
  concat (map slip_escape payload).

(** The values a bytearray holds. *)
Definition is_byte (b : Z) : Prop := 0 <= b < 256.

Section Analyzer.

Context {Time : Type} `{SaleaeTime Time}.

(** [_reset_state]: the state after construction and after every reset. *)
Definition _reset_state : Hla Time :=
  {| escape := false; buffer := []; frame_start_time := None |}.

(** [__init__] only resets. *)
Definition __init__ : Hla Time := _reset_state.

(** [_byte_spans]: every byte of the frame with the frame's own start
    and end time. *)
Definition _byte_spans (frame : SerialFrame Time) : list (Z * Time * Time) :=
  let values := default [] (in_data frame !! "data") in
  match values with
  | [] => []
  | _ => map (fun b => (b, in_start_time frame, in_end_time frame)) values
  end.

(** [self.frame_start_time if self.frame_start_time else end_time]. *)
Definition span_start (self : Hla Time) (end_time : Time) : Time :=
  match frame_start_time self with
  | Some t => if time_truthy t then t else end_time
  | None => end_time
  end.

(** The [data] dictionary of a packet frame. *)
Definition packet_data (payload : list Z) : gmap string value :=
  <["payload_hex" := VStr (payload_hex payload)]>
    (<["length" := VInt (Z.of_nat (length payload))]> ∅).

(** [_emit_packet_frame]: [None] for an empty buffer, otherwise the
    packet frame.  The state is left as it is. *)
Definition _emit_packet_frame (self : Hla Time) (end_time : Time)
  : option (AnalyzerFrame Time) :=
  match buffer self with
  | [] => None
  | payload =>
      Some (Build_AnalyzerFrame "slip_packet" (span_start self end_time)
              end_time (packet_data payload))
  end.

(** The [data] dictionary of an error frame. *)
Definition error_data (message : string) (offending_byte : Z)
  : gmap string value :=
  <["message" := VStr message]> (<["byte" := VInt offending_byte]> ∅).

(** [_emit_error_frame]: builds the frame, then resets the state. *)
Definition _emit_error_frame (self : Hla Time) (end_time : Time)
    (message : string) (offending_byte : Z)
  : Hla Time * AnalyzerFrame Time :=
  let f := Build_AnalyzerFrame "slip_error" (span_start self end_time)
             end_time (error_data message offending_byte) in
  (_reset_state, f).

Definition set_escape (e : bool) (self : Hla Time) : Hla Time :=
  {| escape := e; buffer := buffer self;
     frame_start_time := frame_start_time self |}.

Definition set_frame_start_time (t : option Time) (self : Hla Time)
  : Hla Time :=
  {| escape := escape self; buffer := buffer self; frame_start_time := t |}.

(** [self.buffer.append(b)]. *)
Definition buffer_append (b : Z) (self : Hla Time) : Hla Time :=
  {| escape := escape self; buffer := buffer self ++ [b];
     frame_start_time := frame_start_time self |}.

(** [self.frame_start_time is None]. *)
Definition start_is_None (self : Hla Time) : bool :=
  match frame_start_time self with None => true | Some _ => false end.

Definition invalid_escape_message : string :=
  "Invalid escape sequence after 0xDB".

(** One iteration of the loop of [decode], on the analyzer state and
    the list [out_frames] collected so far.  An [AnalyzerFrame] is an
    ordinary object, hence true in [if err:] and [if packet:]. *)
Definition decode_byte (acc : Hla Time * list (AnalyzerFrame Time))
    (span : Z * Time * Time) : Hla Time * list (AnalyzerFrame Time) :=
  let '(self, out_frames) := acc in
  let '(byte_val, byte_start, byte_end) := span in
  let self :=
    if start_is_None self && negb (byte_val =? END)
    then set_frame_start_time (Some byte_start) self
    else self in
  if escape self then
    let '(self, out_frames) :=
      if byte_val =? ESC_END then (buffer_append END self, out_frames)
      else if byte_val =? ESC_ESC then (buffer_append ESC self, out_frames)
      else
        let '(self, err) :=
          _emit_error_frame self byte_end invalid_escape_message byte_val in
        (self, out_frames ++ [err]) in
    (set_escape false self, out_frames)
  else if byte_val =? ESC then
    let self := set_escape true self in
    let self :=
      if start_is_None self
      then set_frame_start_time (Some byte_start) self
      else self in
    (self, out_frames)
  else if byte_val =? END then
    let out_frames :=
      match _emit_packet_frame self byte_end with
      | Some packet => out_frames ++ [packet]
      | None => out_frames
      end in
    (_reset_state, out_frames)
  else
    (buffer_append (Z.land byte_val 0xFF) self, out_frames).

(** The loop of [decode] over a list of byte spans. *)
Definition decode_spans (acc : Hla Time * list (AnalyzerFrame Time))
    (spans : list (Z * Time * Time))
  : Hla Time * list (AnalyzerFrame Time) :=
  fold_left decode_byte spans acc.

(** [decode]: the new state and the returned value, [None] or the list
    of frames. *)
Definition decode (self : Hla Time) (frame : SerialFrame Time)
  : Hla Time * option (list (AnalyzerFrame Time)) :=
  if negb (String.eqb (in_type frame) "data") then (self, None)
  else
    let '(self, out_frames) := decode_spans (self, []) (_byte_spans frame) in
    match out_frames with
    | [] => (self, None)
    | _ => (self, Some out_frames)
    end.

(** The frames a call hands to the host: nothing for [None]. *)
Definition frames_of (r : option (list (AnalyzerFrame Time)))
  : list (AnalyzerFrame Time) :=
  default [] r.

(** A data frame of the Async Serial analyzer carrying [bytes]. *)
Definition data_frame (bytes : list Z) (t0 t1 : Time) : SerialFrame Time :=
  {| in_type := "data"; in_start_time := t0; in_end_time := t1;
     in_data := {[ "data" := bytes ]} |}.

(** The packet frame for [payload], started at [t0] and ended at [t1]. *)
Definition slip_packet (payload : list Z) (t0 t1 : Time)
  : AnalyzerFrame Time :=
  Build_AnalyzerFrame "slip_packet" (if time_truthy t0 then t0 else t1) t1
    (packet_data payload).

(** The error frame for [byte]. *)
Definition slip_error (byte : Z) (t0 t1 : Time) : AnalyzerFrame Time :=
  Build_AnalyzerFrame "slip_error" (if time_truthy t0 then t0 else t1) t1
    (error_data invalid_escape_message byte).

(** The packet start time after a byte that is not a boundary END:
    kept when already set, otherwise the byte's start. *)
Definition started (s : Time) (self : Hla Time) : option Time :=
  match frame_start_time self with
  | Some t => Some t
  | None => Some s
  end.

(** The start of the span of the error raised by byte [b]: the loop
    first sets [frame_start_time] (unless [b] is END), then
    [_emit_error_frame] reads it. *)
Definition error_span_start (self : Hla Time) (b : Z) (s e : Time) : Time :=
  span_start
    (if start_is_None self && negb (b =? END)
     then set_frame_start_time (Some s) self else self) e.

(** One call of [decode] in a session: the host keeps the frames
    returned so far and adds the new ones. *)
Definition decode_call (acc : Hla Time * list (AnalyzerFrame Time))
    (frame : SerialFrame Time) : Hla Time * list (AnalyzerFrame Time) :=
  let r := decode acc.1 frame in (r.1, acc.2 ++ frames_of r.2).

(** Successive calls of [decode], one per input frame, with all the
    frames handed to the host in order. *)
Definition decode_calls (self : Hla Time) (frames : list (SerialFrame Time))
  : Hla Time * list (AnalyzerFrame Time) :=
  fold_left decode_call frames (self, []).

(** A chunk of the input stream: its bytes, start time and end time. *)
Definition chunk_frame (c : list Z * Time * Time) : SerialFrame Time :=
  data_frame c.1.1 c.1.2 c.2.

(** Two states that differ at most in the value of a set
    [frame_start_time]. *)
Definition same_untimed (self self' : Hla Time) : Prop :=
  escape self = escape self' /\ buffer self = buffer self' /\
  start_is_None self = start_is_None self'.

(** What holds of the state between any two bytes: the buffer is a
    bytearray, and [frame_start_time] is unset exactly when no packet
    is in progress. *)
Definition state_ok (self : Hla Time) : Prop :=
  Forall is_byte (buffer self) /\
  (frame_start_time self = None <->
   escape self = false /\ buffer self = []).

(** The two kinds of frames the analyzer builds. *)
Definition is_packet_frame (f : AnalyzerFrame Time) : Prop :=
  exists payload, payload <> [] /\ Forall is_byte payload /\
    type f = "slip_packet" /\ data f = packet_data payload.

Definition is_error_frame (f : AnalyzerFrame Time) : Prop :=
  exists b, type f = "slip_error" /\
    data f = error_data invalid_escape_message b.

(** A frame without its time span: its type and its data. *)
Definition untimed (f : AnalyzerFrame Time) : string * gmap string value :=
  (type f, data f).

(** States reachable from construction by calls of [decode]. *)
Inductive reachable : Hla Time -> Prop :=
  | reachable_init : reachable __init__
  | reachable_decode self frame :
      reachable self -> reachable (decode self frame).1.


(** ** Measures used to state bounds *)

(** The frames of one type among those returned. *)
Definition frames_of_type (ty : string) (out : list (AnalyzerFrame Time))
  : list (AnalyzerFrame Time) :=
  List.filter (fun f => String.eqb (type f) ty) out.

(** The integer a frame stores under ['length'], 0 when it has none. *)
Definition frame_length (f : AnalyzerFrame Time) : Z :=
  match data f !! "length" with
  | Some (VInt n) => n
  | _ => 0
  end.

(** The sum of the ['length'] fields of a list of frames. *)
Definition total_length (out : list (AnalyzerFrame Time)) : Z :=
  fold_right (fun f n => frame_length f + n) 0 out.

(** The input frames [decode] does not return from at once. *)
Definition is_data_frame (frame : SerialFrame Time) : bool :=
  String.eqb (in_type frame) "data".

(** ** The display templates *)

(** [Hla.result_types]: for each frame type, the format string of its
    bubble text. *)
Definition result_types : gmap string (gmap string string) :=
  <["slip_packet" :=
      {[ "format" := "SLIP len={{data.length}}: {{data.payload_hex}}" ]}]>
    (<["slip_error" :=
         {[ "format" :=
              "SLIP ERROR: {{data.message}} (byte=0x{{data.byte:02X}})" ]}]>
       ∅).

(** Whether [p] occurs in [s], and how often. *)
Fixpoint occurs (p s : string) : bool :=
  match s with
  | EmptyString => String.prefix p EmptyString
  | String _ s' => String.prefix p s || occurs p s'
  end.

Fixpoint count_occurs (p s : string) : nat :=
  match s with
  | EmptyString => if String.prefix p EmptyString then 1 else 0
  | String _ s' => (if String.prefix p s then 1 else 0) + count_occurs p s'
  end%nat.

(** Whether a format string has a placeholder for the data key [k],
    plain or with a format specification. *)
Definition names_field (fmt k : string) : bool :=
  occurs ("{{data." +:+ k +:+ "}}") fmt ||
  occurs ("{{data." +:+ k +:+ ":") fmt.

(** The characters of a rendered payload. *)
Definition hex_alphabet : list ascii :=
  list_ascii_of_string "0123456789ABCDEF ".

(** Whether a payload has at least one byte. *)
Definition has_bytes (payload : list Z) : bool :=
  match payload with
  | [] => false
  | _ => true
  end.

(** ** What the host reads off a frame *)

(** The type of a frame with the values it stores under 'payload_hex'
    and 'length'. *)
Definition packet_fields (f : AnalyzerFrame Time)
  : string * option value * option value :=
  (type f, data f !! "payload_hex", data f !! "length").

(** The type of a frame with the values it stores under 'message' and
    'byte'. *)
Definition error_fields (f : AnalyzerFrame Time)
  : string * option value * option value :=
  (type f, data f !! "message", data f !! "byte").

End Analyzer.

(** A concrete host for running the analyzer: integer timestamps, all
    true, as objects without [__bool__] are. *)
Module ZTime.
#[export] Instance Z_SaleaeTime : SaleaeTime Z :=
  {| time_truthy := fun _ => true |}.

(** The analyzer right after construction. *)
Definition init : Hla Z := __init__.
End ZTime.

(** * Properties *)

Section Lemmas.
Context {Time : Type} `{SaleaeTime Time}.
Implicit Types (self : Hla Time) (out : list (AnalyzerFrame Time))
  (b : Z) (s e t : Time) (P Q bytes : list Z)
  (frame : SerialFrame Time) (spans : list (Z * Time * Time)).

Lemma decode_byte_acc self out sp :
  decode_byte (self, out) sp =
    ((decode_byte (self, []) sp).1, out ++ (decode_byte (self, []) sp).2).
Proof.
  destruct sp as [[b s] e]. unfold decode_byte.
  repeat match goal with
         | |- context [if ?c then _ else _] => destruct c
         | |- context [match ?c with Some _ => _ | None => _ end] => destruct c
         end; simpl; rewrite ?app_nil_r; reflexivity.
Qed.

Lemma decode_spans_cons sp spans acc :
  decode_spans acc (sp :: spans) = decode_spans (decode_byte acc sp) spans.
Proof. reflexivity. Qed.

Lemma decode_spans_acc spans : forall self out,
  decode_spans (self, out) spans =
    ((decode_spans (self, []) spans).1,
     out ++ (decode_spans (self, []) spans).2).
Proof.
  induction spans as [|sp spans IH]; intros self out.
  - simpl. by rewrite app_nil_r.
  - rewrite !decode_spans_cons, decode_byte_acc.
    destruct (decode_byte (self, []) sp) as [self1 out1] eqn:E.
    cbn [fst snd]. rewrite IH, (IH self1 out1). cbn [fst snd].
    by rewrite app_assoc.
Qed.

Lemma decode_spans_app spans1 spans2 acc :
  decode_spans acc (spans1 ++ spans2) =
    decode_spans (decode_spans acc spans1) spans2.
Proof. unfold decode_spans. apply fold_left_app. Qed.


(** ** One byte at a time *)

Ltac eqb_neq :=
  repeat match goal with
         | Hne : ?b <> ?c |- context [?b =? ?c] =>
             rewrite (proj2 (Z.eqb_neq b c) Hne)
         end.

Lemma decode_byte_plain self out b s e :
  escape self = false -> b <> END -> b <> ESC ->
  decode_byte (self, out) (b, s, e) =
    (Build_Hla false (buffer self ++ [Z.land b 0xFF]) (started s self), out).
Proof.
  intros Hesc HE HS. unfold decode_byte, started, start_is_None. eqb_neq.
  destruct self as [esc buf [t|]]; simpl in *; subst esc; reflexivity.
Qed.

Lemma decode_byte_ESC self out s e :
  escape self = false ->
  decode_byte (self, out) (ESC, s, e) =
    (Build_Hla true (buffer self) (started s self), out).
Proof.
  intros Hesc. unfold decode_byte, started, start_is_None.
  destruct self as [esc buf [t|]]; simpl in *; subst esc; reflexivity.
Qed.

Lemma decode_byte_END self out s e :
  escape self = false ->
  decode_byte (self, out) (END, s, e) =
    (_reset_state, out ++ option_list (_emit_packet_frame self e)).
Proof.
  intros Hesc. unfold decode_byte.
  change (END =? END) with true. rewrite andb_false_r, Hesc.
  change (END =? ESC) with false. cbn iota.
  destruct (_emit_packet_frame self e); simpl; by rewrite ?app_nil_r.
Qed.

Lemma decode_byte_ESC_END self out s e :
  escape self = true ->
  decode_byte (self, out) (ESC_END, s, e) =
    (Build_Hla false (buffer self ++ [END]) (started s self), out).
Proof.
  intros Hesc. unfold decode_byte, started, start_is_None.
  destruct self as [esc buf [t|]]; simpl in *; subst esc; reflexivity.
Qed.

Lemma decode_byte_ESC_ESC self out s e :
  escape self = true ->
  decode_byte (self, out) (ESC_ESC, s, e) =
    (Build_Hla false (buffer self ++ [ESC]) (started s self), out).
Proof.
  intros Hesc. unfold decode_byte, started, start_is_None.
  destruct self as [esc buf [t|]]; simpl in *; subst esc; reflexivity.
Qed.

Lemma decode_byte_invalid self out b s e :
  escape self = true -> b <> ESC_END -> b <> ESC_ESC ->
  decode_byte (self, out) (b, s, e) =
    (_reset_state,
     out ++ [Build_AnalyzerFrame "slip_error" (error_span_start self b s e) e
               (error_data invalid_escape_message b)]).
Proof.
  intros Hesc HE HS. unfold decode_byte, error_span_start. eqb_neq.
  destruct self as [esc buf t]; simpl in *; subst esc.
  destruct (start_is_None _ && negb (b =? END)); reflexivity.
Qed.

(** ** Bytes and the rendering of payloads *)

Lemma is_byte_land b : is_byte b -> Z.land b 0xFF = b.
Proof.
  intros [Hlo Hhi]. change 0xFF with (Z.ones 8).
  rewrite Z.land_ones by lia. apply Z.mod_small. lia.
Qed.

Lemma land_is_byte b : is_byte (Z.land b 0xFF).
Proof.
  unfold is_byte. change 0xFF with (Z.ones 8).
  rewrite Z.land_ones by lia. apply Z.mod_pos_bound. lia.
Qed.

Lemma hex_digit_inj d1 d2 :
  0 <= d1 < 16 -> 0 <= d2 < 16 -> hex_digit d1 = hex_digit d2 -> d1 = d2.
Proof.
  intros H1 H2.
  assert (Hc : forall d, 0 <= d < 16 ->
    d = 0 \/ d = 1 \/ d = 2 \/ d = 3 \/ d = 4 \/ d = 5 \/ d = 6 \/ d = 7 \/
    d = 8 \/ d = 9 \/ d = 10 \/ d = 11 \/ d = 12 \/ d = 13 \/ d = 14 \/
    d = 15) by (intros; lia).
  destruct (Hc d1 H1) as [->|[->|[->|[->|[->|[->|[->|[->|[->|[->|[->|[->|[->|[->|[->| ->]]]]]]]]]]]]]]];
  destruct (Hc d2 H2) as [->|[->|[->|[->|[->|[->|[->|[->|[->|[->|[->|[->|[->|[->|[->| ->]]]]]]]]]]]]]]];
  simpl; intros E; first [reflexivity | discriminate E].
Qed.

Lemma format_02X_inj b1 b2 :
  is_byte b1 -> is_byte b2 -> format_02X b1 = format_02X b2 -> b1 = b2.
Proof.
  unfold is_byte, format_02X. intros H1 H2 E.
  injection E as Ehi Elo.
  apply hex_digit_inj in Ehi; [|split; [apply Z.div_pos|apply Z.div_lt_upper_bound]; lia ..].
  apply hex_digit_inj in Elo; [|apply Z.mod_pos_bound; lia ..].
  rewrite (Z.div_mod b1 16), (Z.div_mod b2 16) by lia. congruence.
Qed.

Lemma payload_hex_one b : payload_hex [b] = format_02X b.
Proof. reflexivity. Qed.

Lemma payload_hex_cons b c P :
  payload_hex (b :: c :: P) =
    String (hex_digit (b / 16))
      (String (hex_digit (b mod 16)) (String " " (payload_hex (c :: P)))).
Proof. reflexivity. Qed.

(** The rendering determines the payload: two byte sequences with the
    same [payload_hex] are equal. *)
Lemma payload_hex_inj P Q :
  Forall is_byte P -> Forall is_byte Q ->
  payload_hex P = payload_hex Q -> P = Q.
Proof.
  intros HP. revert Q.
  induction HP as [|b P Hb HP IH]; intros Q HQ E.
  - destruct HQ as [|c [|c' Q] Hc HQ]; [done|discriminate E..].
  - destruct HQ as [|c Q Hc HQ].
    + destruct P; discriminate E.
    + destruct P as [|b' P], Q as [|c' Q].
      * rewrite !payload_hex_one in E. f_equal. by apply format_02X_inj.
      * rewrite payload_hex_one, payload_hex_cons in E. discriminate E.
      * rewrite payload_hex_one, payload_hex_cons in E. discriminate E.
      * rewrite !payload_hex_cons in E.
        injection E as Ehi Elo Erest.
        f_equal; [|by apply IH].
        apply format_02X_inj; [done..|]. unfold format_02X. congruence.
Qed.

Lemma payload_hex_length P :
  P <> [] -> String.length (payload_hex P) = (3 * length P - 1)%nat.
Proof.
  induction P as [|b [|c P] IH]; intros HP; [done|done|].
  rewrite payload_hex_cons. cbn [String.length].
  rewrite IH by done. cbn [length]. lia.
Qed.

(** ** The fields of the frames *)

Lemma packet_data_payload_hex payload :
  packet_data payload !! "payload_hex" = Some (VStr (payload_hex payload)).
Proof. unfold packet_data. apply lookup_insert_eq. Qed.

Lemma packet_data_length payload :
  packet_data payload !! "length" = Some (VInt (Z.of_nat (length payload))).
Proof. unfold packet_data. by rewrite lookup_insert_ne, lookup_insert_eq. Qed.

Lemma packet_data_dom payload :
  dom (packet_data payload) = ({[ "payload_hex"; "length" ]} : gset string).
Proof.
  unfold packet_data. rewrite !dom_insert_L, dom_empty_L. set_solver.
Qed.

Lemma packet_data_payload payload : packet_data payload !! "payload" = None.
Proof.
  apply not_elem_of_dom. rewrite packet_data_dom.
  intros [Hin|Hin]%elem_of_union; apply elem_of_singleton in Hin;
    discriminate Hin.
Qed.

Lemma error_data_message message b :
  error_data message b !! "message" = Some (VStr message).
Proof. unfold error_data. apply lookup_insert_eq. Qed.

Lemma error_data_byte message b :
  error_data message b !! "byte" = Some (VInt b).
Proof. unfold error_data. by rewrite lookup_insert_ne, lookup_insert_eq. Qed.

(** Reads the fields of a frame built by the analyzer off its
    dictionary. *)
Ltac read_fields :=
  unfold packet_fields, error_fields, slip_packet, slip_error, packet_data,
    error_data;
  cbn [type data];
  repeat first [rewrite lookup_insert_eq | rewrite lookup_insert_ne by done];
  rewrite ?length_map; reflexivity.

(** ** Whole chunks *)

Lemma byte_spans_data_frame bytes t0 t1 :
  _byte_spans (data_frame bytes t0 t1) = map (fun b => (b, t0, t1)) bytes.
Proof.
  unfold _byte_spans, data_frame. cbn [in_data in_start_time in_end_time].
  rewrite lookup_singleton_eq. by destruct bytes.
Qed.

Lemma decode_data self frame :
  in_type frame = "data" ->
  decode self frame =
    ((decode_spans (self, []) (_byte_spans frame)).1,
     match (decode_spans (self, []) (_byte_spans frame)).2 with
     | [] => None
     | out_frames => Some out_frames
     end).
Proof.
  intros Ht. unfold decode. rewrite Ht. cbn [String.eqb negb].
  change (String.eqb "data" "data") with true. cbn [negb].
  by destruct (decode_spans _ _) as [self' [|f out]].
Qed.

Lemma decode_data_frames self frame :
  in_type frame = "data" ->
  frames_of (decode self frame).2 =
    (decode_spans (self, []) (_byte_spans frame)).2.
Proof.
  intros Ht. rewrite decode_data by done. cbn [snd].
  by destruct (decode_spans _ _).2.
Qed.

Lemma decode_data_state self frame :
  in_type frame = "data" ->
  (decode self frame).1 = (decode_spans (self, []) (_byte_spans frame)).1.
Proof. intros Ht. by rewrite decode_data. Qed.

Lemma started_idem s self (esc : bool) (buf : list Z) :
  started s (Build_Hla esc buf (started s self)) = started s self.
Proof. unfold started. cbn. by destruct (frame_start_time self). Qed.

(** The bytes of an encoded payload, met outside an escape, are
    appended to the buffer decoded, and nothing is emitted. *)
Lemma decode_spans_encode P : forall self out s e,
  escape self = false -> Forall is_byte P ->
  decode_spans (self, out) (map (fun b => (b, s, e)) (slip_encode P)) =
    (Build_Hla false (buffer self ++ P)
       (match P with [] => frame_start_time self | _ => started s self end),
     out).
Proof.
  induction P as [|b P IH]; intros self out s e Hesc HP.
  - simpl. rewrite app_nil_r. destruct self; simpl in *; by subst.
  - apply Forall_cons in HP as [Hb HP].
    change (slip_encode (b :: P)) with (slip_escape b ++ slip_encode P).
    rewrite map_app, decode_spans_app.
    assert (Hstep : decode_spans (self, out) (map (fun b => (b, s, e)) (slip_escape b)) =
              (Build_Hla false (buffer self ++ [b]) (started s self), out)).
    { unfold slip_escape.
      destruct (Z.eqb_spec b END) as [->|HE];
        [|destruct (Z.eqb_spec b ESC) as [->|HS]]; cbn [map].
      - rewrite decode_spans_cons, decode_byte_ESC by done.
        rewrite decode_spans_cons, decode_byte_ESC_END by done.
        cbn [buffer]. by rewrite started_idem.
      - rewrite decode_spans_cons, decode_byte_ESC by done.
        rewrite decode_spans_cons, decode_byte_ESC_ESC by done.
        cbn [buffer]. by rewrite started_idem.
      - rewrite decode_spans_cons, decode_byte_plain by done.
        by rewrite is_byte_land. }
    rewrite Hstep, IH by done. cbn [buffer frame_start_time].
    rewrite <- app_assoc. cbn [app]. f_equal. f_equal.
    destruct P; [done|]. apply started_idem.
Qed.

Lemma slip_encode_plain P :
  Forall (fun b => b <> END /\ b <> ESC) P -> slip_encode P = P.
Proof.
  induction 1 as [|b P [HE HS] HP IH]; [done|].
  change (slip_encode (b :: P)) with (slip_escape b ++ slip_encode P).
  rewrite IH. unfold slip_escape.
  by rewrite (proj2 (Z.eqb_neq _ _) HE), (proj2 (Z.eqb_neq _ _) HS).
Qed.

(** A frame [slip_encode P ++ [END]] met with an empty buffer and
    outside an escape yields the packet [P] and resets the analyzer. *)
Lemma decode_spans_frame P self out s e :
  escape self = false -> buffer self = [] -> frame_start_time self = None ->
  Forall is_byte P -> P <> [] ->
  decode_spans (self, out)
    (map (fun b => (b, s, e)) (slip_encode P ++ [END])) =
    (_reset_state, out ++ [slip_packet P s e]).
Proof.
  intros Hesc Hbuf Hst HP Hne.
  rewrite map_app, decode_spans_app, decode_spans_encode by done.
  cbn [map]. rewrite decode_spans_cons, decode_byte_END by done.
  rewrite Hbuf. cbn [app]. unfold _emit_packet_frame, span_start, started.
  cbn [buffer frame_start_time]. rewrite Hst.
  destruct P as [|b P]; [done|]. reflexivity.
Qed.

Lemma decode_byte_boundary self out s e :
  escape self = false -> buffer self = [] ->
  decode_byte (self, out) (END, s, e) = (_reset_state, out).
Proof.
  intros Hesc Hbuf. rewrite decode_byte_END by done.
  unfold _emit_packet_frame. rewrite Hbuf. cbn. by rewrite app_nil_r.
Qed.

(** Frames back to back, each closed by its END. *)
Lemma decode_spans_frames Ps : forall out s e,
  Forall (fun P => Forall is_byte P /\ P <> []) Ps ->
  decode_spans (_reset_state, out)
    (map (fun b => (b, s, e))
       (concat (map (fun P => slip_encode P ++ [END]) Ps))) =
    (_reset_state, out ++ map (fun P => slip_packet P s e) Ps).
Proof.
  induction Ps as [|P Ps IH]; intros out s e HPs.
  - cbn. by rewrite app_nil_r.
  - apply Forall_cons in HPs as [[HP Hne] HPs].
    cbn [map concat]. rewrite map_app, decode_spans_app.
    rewrite decode_spans_frame by done.
    rewrite IH by done. by rewrite <- app_assoc.
Qed.

Lemma decode_frames Ps t0 t1 :
  Forall (fun P => Forall is_byte P /\ P <> []) Ps ->
  decode _reset_state
    (data_frame (END :: concat (map (fun P => slip_encode P ++ [END]) Ps))
       t0 t1) =
    (_reset_state,
     match Ps with
     | [] => None
     | _ => Some (map (fun P => slip_packet P t0 t1) Ps)
     end).
Proof.
  intros HPs. rewrite decode_data, byte_spans_data_frame by done.
  cbn [map]. rewrite decode_spans_cons, decode_byte_boundary by done.
  rewrite decode_spans_frames by done. cbn [fst snd app].
  by destruct Ps.
Qed.

(** ** Round trip *)

(** C1, as amended: for every non-empty byte sequence [P] without a
    literal 0xC0 or 0xDB, the chunk END + P + END fed to the analyzer in
    its initial state returns exactly one frame, the slip_packet whose
    [payload_hex] renders [P] and whose [length] is the length of [P],
    and leaves the analyzer in its initial state; no other byte sequence
    has that rendering. *)
Theorem round_trip_plain P t0 t1 :
  Forall is_byte P -> Forall (fun b => b <> END /\ b <> ESC) P -> P <> [] ->
  decode __init__ (data_frame ([END] ++ P ++ [END]) t0 t1) =
    (__init__, Some [slip_packet P t0 t1]) /\
  type (slip_packet P t0 t1) = "slip_packet" /\
  data (slip_packet P t0 t1) !! "payload_hex" = Some (VStr (payload_hex P)) /\
  data (slip_packet P t0 t1) !! "length" =
    Some (VInt (Z.of_nat (length P))) /\
  (forall Q, Forall is_byte Q -> payload_hex Q = payload_hex P -> Q = P).
Proof.
  intros HP Hplain Hne. split; [|split; [done|split; [|split]]].
  - pose proof (decode_frames [P] t0 t1) as Hd.
    cbn [map concat] in Hd. rewrite app_nil_r in Hd.
    rewrite (slip_encode_plain P Hplain) in Hd.
    apply Hd. by repeat constructor.
  - cbn [slip_packet data]. unfold packet_data. apply lookup_insert_eq.
  - cbn [slip_packet data]. unfold packet_data.
    by rewrite lookup_insert_ne, lookup_insert_eq.
  - intros Q HQ E. by apply payload_hex_inj.
Qed.

(** ** Escape correctness *)

(** C2: a payload with literal 0xC0 / 0xDB bytes, encoded with the
    substitutions 0xC0 -> 0xDB 0xDC and 0xDB -> 0xDB 0xDD, framed by END
    markers and decoded from the initial state, comes back as the one
    slip_packet of that payload: the frame's [payload_hex] is the
    rendering of [P], which no other byte sequence has, and its [length]
    is the length of [P] (0xC0, 0x01, 0xDB comes back shown as
    "C0 01 DB"); after an ESC, 0xDC appends a literal 0xC0 and
    0xDD a literal 0xDB to the buffer, without output. *)
Theorem escape_correctness P t0 t1 :
  Forall is_byte P -> END ∈ P \/ ESC ∈ P ->
  decode __init__ (data_frame ([END] ++ slip_encode P ++ [END]) t0 t1) =
    (__init__, Some [slip_packet P t0 t1]) /\
  (forall self out s e, escape self = true ->
     decode_byte (self, out) (ESC_END, s, e) =
       (Build_Hla false (buffer self ++ [END]) (started s self), out) /\
     decode_byte (self, out) (ESC_ESC, s, e) =
       (Build_Hla false (buffer self ++ [ESC]) (started s self), out)) /\
  (exists f,
     frames_of
       (decode __init__
          (data_frame ([END] ++ slip_encode P ++ [END]) t0 t1)).2 = [f] /\
     type f = "slip_packet" /\
     data f !! "payload_hex" = Some (VStr (payload_hex P)) /\
     data f !! "length" = Some (VInt (Z.of_nat (length P)))) /\
  (forall Q, Forall is_byte Q -> payload_hex Q = payload_hex P -> Q = P) /\
  map packet_fields
    (frames_of
       (decode __init__
          (data_frame [END; 0xDB; 0xDC; 0x01; 0xDB; 0xDD; END] t0 t1)).2) =
    [("slip_packet", Some (VStr "C0 01 DB"), Some (VInt 3))].
Proof.
  intros HP Hin.
  assert (Hdec : decode __init__
                   (data_frame ([END] ++ slip_encode P ++ [END]) t0 t1) =
                 (__init__, Some [slip_packet P t0 t1])).
  { pose proof (decode_frames [P] t0 t1) as Hd.
    cbn [map concat] in Hd. rewrite app_nil_r in Hd.
    apply Hd. repeat constructor; [done|].
    intros ->. destruct Hin as [Hin|Hin]; by apply elem_of_nil in Hin. }
  split; [exact Hdec|]. split; [|split; [|split]].
  - intros self out s e Hesc.
    split; [by apply decode_byte_ESC_END | by apply decode_byte_ESC_ESC].
  - exists (slip_packet P t0 t1). rewrite Hdec. split; [done|].
    split; [done|]. split; read_fields.
  - intros Q HQ E. by apply payload_hex_inj.
  - reflexivity.
Qed.

(** ** Several frames in one chunk *)

(** C6: one call of [decode] on a chunk of complete frames back to
    back returns their slip_packet frames as one list, in the order of
    the chunk: the i-th frame has the [payload_hex] and the [length] of
    the i-th payload, and the rendering tells the payloads apart; for
    END,0xAA,END,0xBB,END these are the packets [0xAA] then [0xBB],
    shown as "AA" and "BB". *)
Theorem multi_packet_chunk Ps t0 t1 :
  Forall (fun P => Forall is_byte P /\ P <> []) Ps -> Ps <> [] ->
  decode __init__
    (data_frame (END :: concat (map (fun P => slip_encode P ++ [END]) Ps))
       t0 t1) =
    (__init__, Some (map (fun P => slip_packet P t0 t1) Ps)) /\
  decode __init__ (data_frame [END; 0xAA; END; 0xBB; END] t0 t1) =
    (__init__, Some [slip_packet [0xAA] t0 t1; slip_packet [0xBB] t0 t1]) /\
  map packet_fields
    (frames_of
       (decode __init__
          (data_frame
             (END :: concat (map (fun P => slip_encode P ++ [END]) Ps))
             t0 t1)).2) =
    map (fun P => ("slip_packet", Some (VStr (payload_hex P)),
                   Some (VInt (Z.of_nat (length P))))) Ps /\
  map packet_fields
    (frames_of
       (decode __init__ (data_frame [END; 0xAA; END; 0xBB; END] t0 t1)).2) =
    [("slip_packet", Some (VStr "AA"), Some (VInt 1));
     ("slip_packet", Some (VStr "BB"), Some (VInt 1))] /\
  (forall P Q, Forall is_byte P -> Forall is_byte Q ->
     payload_hex P = payload_hex Q -> P = Q).
Proof.
  intros HPs Hne.
  assert (Hgen : decode __init__
            (data_frame
               (END :: concat (map (fun P => slip_encode P ++ [END]) Ps))
               t0 t1) =
            (__init__, Some (map (fun P => slip_packet P t0 t1) Ps))).
  { unfold __init__. rewrite decode_frames by done. by destruct Ps. }
  assert (Hex : decode __init__
            (data_frame [END; 0xAA; END; 0xBB; END] t0 t1) =
            (__init__,
             Some [slip_packet [0xAA] t0 t1; slip_packet [0xBB] t0 t1])).
  { apply (decode_frames [[0xAA]; [0xBB]] t0 t1).
    repeat constructor; unfold is_byte; lia || done. }
  split; [exact Hgen|]. split; [exact Hex|]. split; [|split].
  - rewrite Hgen.
    change (frames_of (__init__, Some ?l).2) with l.
    rewrite map_map. apply map_ext. intros P. read_fields.
  - reflexivity.
  - intros P Q HP HQ E. by apply payload_hex_inj.
Qed.

(** ** Sessions of several calls *)

Lemma decode_call_data self out frame :
  in_type frame = "data" ->
  decode_call (self, out) frame = decode_spans (self, out) (_byte_spans frame).
Proof.
  intros Ht. unfold decode_call. cbn [fst snd].
  rewrite decode_data_frames, decode_data_state by done.
  by rewrite (decode_spans_acc _ self out).
Qed.

(** A session of data chunks is the loop of [decode] over all their
    bytes in order. *)
Lemma fold_decode_call_chunks chunks : forall acc,
  fold_left decode_call (map chunk_frame chunks) acc =
    decode_spans acc
      (concat (map (fun c => map (fun b => (b, c.1.2, c.2)) c.1.1) chunks)).
Proof.
  induction chunks as [|c chunks IH]; intros [self out]; [done|].
  cbn [map concat fold_left]. rewrite decode_spans_app, <- IH.
  rewrite decode_call_data by done. unfold chunk_frame.
  by rewrite byte_spans_data_frame.
Qed.

Lemma decode_calls_chunks self chunks :
  decode_calls self (map chunk_frame chunks) =
    decode_spans (self, [])
      (concat (map (fun c => map (fun b => (b, c.1.2, c.2)) c.1.1) chunks)).
Proof. apply fold_decode_call_chunks. Qed.

(** ** Idle boundaries *)

Lemma decode_spans_boundaries spans : forall out,
  Forall (fun sp => sp.1.1 = END) spans ->
  decode_spans (_reset_state, out) spans = (_reset_state, out).
Proof.
  induction spans as [|[[b s] e] spans IH]; intros out Hall; [done|].
  apply Forall_cons in Hall as [Hb Hall]. cbn in Hb. subst b.
  by rewrite decode_spans_cons, decode_byte_boundary, IH.
Qed.

(** C7: N >= 1 consecutive END bytes fed to the analyzer in its initial
    state, in one chunk or split over any number of chunks, produce no
    frame and leave the analyzer in its initial state; an END met with
    an empty buffer and no pending escape emits nothing and leaves
    [frame_start_time] unset. *)
Theorem idempotent_boundaries (N : nat) t0 t1 :
  (1 <= N)%nat ->
  decode __init__ (data_frame (replicate N END) t0 t1) = (__init__, None) /\
  (forall chunks : list (list Z * Time * Time),
     concat (map (fun c => c.1.1) chunks) = replicate N END ->
     decode_calls __init__ (map chunk_frame chunks) = (__init__, [])) /\
  (forall self out s e, escape self = false -> buffer self = [] ->
     decode_byte (self, out) (END, s, e) = (_reset_state, out) /\
     frame_start_time (decode_byte (self, out) (END, s, e)).1 = None).
Proof.
  intros HN. split; [|split].
  - rewrite decode_data, byte_spans_data_frame by done.
    unfold __init__. rewrite decode_spans_boundaries; [done|].
    apply Forall_map, Forall_forall. intros b Hb.
    by apply elem_of_replicate in Hb as [-> _].
  - intros chunks Hcat. rewrite decode_calls_chunks.
    unfold __init__. apply decode_spans_boundaries.
    apply Forall_forall. intros sp Hsp.
    apply list_elem_of_In, in_concat in Hsp as (l & Hl & Hsp).
    apply in_map_iff in Hl as (c & <- & Hc).
    apply in_map_iff in Hsp as (b & <- & Hb). cbn.
    assert (Hin : In b (replicate N END)).
    { rewrite <- Hcat. apply in_concat. exists c.1.1.
      split; [|done]. apply in_map_iff. by exists c. }
    by apply list_elem_of_In, elem_of_replicate in Hin as [-> _].
  - intros self out s e Hesc Hbuf.
    by rewrite decode_byte_boundary.
Qed.

(** ** Frames that are not data *)

(** C9: a frame whose type is not "data" returns [None] and leaves the
    escape flag, the buffer and the packet start time as they were,
    whatever the frame holds. *)
Theorem non_data_ignored self frame :
  in_type frame <> "data" ->
  decode self frame = (self, None) /\
  escape (decode self frame).1 = escape self /\
  buffer (decode self frame).1 = buffer self /\
  frame_start_time (decode self frame).1 = frame_start_time self.
Proof.
  intros Ht. apply String.eqb_neq in Ht.
  assert (Hd : decode self frame = (self, None)).
  { unfold decode. by rewrite Ht. }
  by rewrite Hd.
Qed.

(** ** Invalid escape continuations *)

(** C3: a byte met right after an ESC that is neither 0xDC nor 0xDD
    adds exactly one slip_error frame, with the message "Invalid escape
    sequence after 0xDB" and that byte, and resets the analyzer; the
    rest of the chunk is decoded from the reset state, and a well-formed
    packet that follows, in the same chunk or in the next call, is
    decoded as from a fresh analyzer.  ESC, 0x55 from the initial state
    gives the one error with byte 0x55. *)
Theorem error_recovery self out b s e :
  escape self = true -> b <> ESC_END -> b <> ESC_ESC ->
  let err :=
    Build_AnalyzerFrame "slip_error" (error_span_start self b s e) e
      (error_data invalid_escape_message b) in
  decode_byte (self, out) (b, s, e) = (_reset_state, out ++ [err]) /\
  data err !! "message" = Some (VStr "Invalid escape sequence after 0xDB") /\
  data err !! "byte" = Some (VInt b) /\
  (forall spans,
     decode_spans (self, out) ((b, s, e) :: spans) =
       decode_spans (_reset_state, out ++ [err]) spans) /\
  (forall P, Forall is_byte P -> P <> [] ->
     decode self (data_frame (b :: [END] ++ slip_encode P ++ [END]) s e) =
       (_reset_state, Some [err; slip_packet P s e])) /\
  (forall P t0 t1, Forall is_byte P -> P <> [] ->
     decode self (data_frame [b] s e) = (_reset_state, Some [err]) /\
     decode (decode self (data_frame [b] s e)).1
       (data_frame ([END] ++ slip_encode P ++ [END]) t0 t1) =
       (_reset_state, Some [slip_packet P t0 t1])) /\
  decode __init__ (data_frame [ESC; 0x55] s e) =
    (__init__, Some [slip_error 0x55 s e]).
Proof.
  intros Hesc HE HS err.
  assert (Hstep : forall out', decode_byte (self, out') (b, s, e) =
                                 (_reset_state, out' ++ [err])).
  { intros out'. by apply decode_byte_invalid. }
  assert (Hone : decode self (data_frame [b] s e) =
                   (_reset_state, Some [err])).
  { rewrite decode_data, byte_spans_data_frame by done.
    cbn [map]. by rewrite decode_spans_cons, Hstep. }
  assert (Hpkt : forall P t0 t1, Forall is_byte P -> P <> [] ->
            decode _reset_state
              (data_frame ([END] ++ slip_encode P ++ [END]) t0 t1) =
              (_reset_state, Some [slip_packet P t0 t1])).
  { intros P t0 t1 HP Hne. pose proof (decode_frames [P] t0 t1) as Hd.
    cbn [map concat] in Hd. rewrite app_nil_r in Hd.
    apply Hd. by repeat constructor. }
  split; [apply Hstep|].
  split; [apply error_data_message|].
  split; [apply error_data_byte|].
  split; [|split; [|split]].
  - intros spans. by rewrite decode_spans_cons, Hstep.
  - intros P HP Hne.
    rewrite decode_data, byte_spans_data_frame by done.
    cbn [map app]. rewrite decode_spans_cons, Hstep.
    rewrite decode_spans_cons, decode_byte_boundary by done.
    by rewrite decode_spans_frame.
  - intros P t0 t1 HP Hne. split; [apply Hone|].
    rewrite Hone. cbn [fst]. by apply Hpkt.
  - rewrite decode_data, byte_spans_data_frame by done.
    cbn [map]. rewrite decode_spans_cons, decode_byte_ESC by done.
    rewrite decode_spans_cons, decode_byte_invalid by done.
    reflexivity.
Qed.

(** ** Invariants of the state and of the emitted frames *)

Lemma state_ok_reset : state_ok (_reset_state : Hla Time).
Proof. split; [constructor|]. by split. Qed.

Lemma started_Some s self : started s self <> None.
Proof. unfold started. by destruct (frame_start_time self). Qed.

Lemma is_byte_END : is_byte END.
Proof. unfold is_byte, END. lia. Qed.

Lemma is_byte_ESC : is_byte ESC.
Proof. unfold is_byte, ESC. lia. Qed.

(** The cases of one iteration, for a state with a byte buffer. *)
Lemma decode_byte_cases self out b s e :
  exists self' new,
    decode_byte (self, out) (b, s, e) = (self', out ++ new) /\
    ((new = [] /\ frame_start_time self' <> None /\
      (escape self' = true \/ buffer self' <> []) /\
      (Forall is_byte (buffer self) -> Forall is_byte (buffer self'))) \/
     (self' = _reset_state /\ new = [] /\ b = END /\ escape self = false /\
      buffer self = []) \/
     (self' = _reset_state /\ b = END /\ escape self = false /\
      buffer self <> [] /\
      new = [Build_AnalyzerFrame "slip_packet" (span_start self e) e
               (packet_data (buffer self))]) \/
     (self' = _reset_state /\ escape self = true /\ b <> ESC_END /\
      b <> ESC_ESC /\
      new = [Build_AnalyzerFrame "slip_error" (error_span_start self b s e)
               e (error_data invalid_escape_message b)])).
Proof.
  destruct (escape self) eqn:Hesc.
  - destruct (Z.eq_dec b ESC_END) as [->|HE];
      [|destruct (Z.eq_dec b ESC_ESC) as [->|HS]].
    + rewrite decode_byte_ESC_END by done. eexists _, [].
      rewrite app_nil_r. split; [done|]. left. cbn.
      split; [done|]. split; [apply started_Some|]. split.
      * right. intros Hnil. by apply app_eq_nil in Hnil as [_ ?].
      * intros Hbytes. apply Forall_app. split; [done|]. constructor; [apply is_byte_END|done].
    + rewrite decode_byte_ESC_ESC by done. eexists _, [].
      rewrite app_nil_r. split; [done|]. left. cbn.
      split; [done|]. split; [apply started_Some|]. split.
      * right. intros Hnil. by apply app_eq_nil in Hnil as [_ ?].
      * intros Hbytes. apply Forall_app. split; [done|]. constructor; [apply is_byte_ESC|done].
    + rewrite decode_byte_invalid by done. eexists _, [_].
      split; [done|]. by do 3 right.
  - destruct (Z.eq_dec b ESC) as [->|HS];
      [|destruct (Z.eq_dec b END) as [->|HE]].
    + rewrite decode_byte_ESC by done. eexists _, [].
      rewrite app_nil_r. split; [done|]. left. cbn.
      split; [done|]. split; [apply started_Some|]. split; [by left|done].
    + rewrite decode_byte_END by done. unfold _emit_packet_frame.
      destruct (buffer self) as [|c buf] eqn:Hbuf.
      * eexists _, []. split; [done|]. right. by left.
      * eexists _, [_]. split; [done|]. do 2 right. left.
        by repeat split.
    + rewrite decode_byte_plain by done. eexists _, [].
      rewrite app_nil_r. split; [done|]. left. cbn.
      split; [done|]. split; [apply started_Some|]. split.
      * right. intros Hnil. by apply app_eq_nil in Hnil as [_ ?].
      * intros Hbytes. apply Forall_app. split; [done|].
        constructor; [apply land_is_byte|done].
Qed.

Lemma decode_byte_ok self out sp :
  state_ok self -> Forall (fun f => is_packet_frame f \/ is_error_frame f) out ->
  state_ok (decode_byte (self, out) sp).1 /\
  Forall (fun f => is_packet_frame f \/ is_error_frame f)
    (decode_byte (self, out) sp).2.
Proof.
  intros [Hbytes Hstart] Hout. destruct sp as [[b s] e].
  destruct (decode_byte_cases self out b s e)
    as (self' & new & -> & Hcase). cbn [fst snd].
  destruct Hcase as [(-> & Hst & Hprog & Hb)
                    |[(-> & -> & _)
                     |[(-> & _ & _ & Hne & ->)|(-> & _ & _ & _ & ->)]]].
  - rewrite app_nil_r. split; [|done]. split; [by apply Hb|].
    split; [done|]. intros [Hesc Hnil]. destruct Hprog; congruence.
  - rewrite app_nil_r. split; [apply state_ok_reset|done].
  - split; [apply state_ok_reset|]. apply Forall_app. split; [done|].
    constructor; [|done]. left. by exists (buffer self).
  - split; [apply state_ok_reset|]. apply Forall_app. split; [done|].
    constructor; [|done]. right. by exists b.
Qed.

Lemma decode_spans_ok spans : forall self out,
  state_ok self -> Forall (fun f => is_packet_frame f \/ is_error_frame f) out ->
  state_ok (decode_spans (self, out) spans).1 /\
  Forall (fun f => is_packet_frame f \/ is_error_frame f)
    (decode_spans (self, out) spans).2.
Proof.
  induction spans as [|sp spans IH]; intros self out Hok Hout; [done|].
  rewrite decode_spans_cons.
  destruct (decode_byte_ok self out sp Hok Hout) as [Hok' Hout'].
  destruct (decode_byte (self, out) sp) as [self' out']. by apply IH.
Qed.

Lemma decode_ok self frame :
  state_ok self ->
  state_ok (decode self frame).1 /\
  Forall (fun f => is_packet_frame f \/ is_error_frame f)
    (frames_of (decode self frame).2).
Proof.
  intros Hok. destruct (String.eqb_spec (in_type frame) "data") as [Ht|Ht].
  - rewrite decode_data_frames, decode_data_state by done.
    by apply decode_spans_ok.
  - apply String.eqb_neq in Ht. unfold decode. rewrite Ht. cbn. by split.
Qed.

Lemma reachable_ok self : reachable self -> state_ok self.
Proof.
  induction 1 as [|self frame _ IH]; [apply state_ok_reset|].
  by apply decode_ok.
Qed.

(** C10: in every state reachable from construction by calls of
    [decode], and in every state such a call passes through between
    two bytes, a set escape flag comes with a set [frame_start_time];
    so the error frame of an invalid continuation is built with that
    time at hand, and starts at it whenever it is true. *)
Theorem escape_implies_start_time self :
  reachable self ->
  (escape self = true -> exists t, frame_start_time self = Some t) /\
  (forall spans b s e,
     let mid := decode_spans (self, []) spans in
     escape mid.1 = true ->
     exists t, frame_start_time mid.1 = Some t /\
       (b <> ESC_END -> b <> ESC_ESC ->
        decode_byte mid (b, s, e) =
          (_reset_state,
           mid.2 ++ [Build_AnalyzerFrame "slip_error"
                       (if time_truthy t then t else e) e
                       (error_data invalid_escape_message b)]))).
Proof.
  intros Hreach. apply reachable_ok in Hreach.
  assert (Hset : forall self', state_ok self' -> escape self' = true ->
                   exists t, frame_start_time self' = Some t).
  { intros self' [_ Hstart] Hesc.
    destruct (frame_start_time self') as [t|]; [by exists t|].
    destruct Hstart as [Hstart _]. destruct Hstart; congruence. }
  split; [by apply Hset|].
  intros spans b s e mid Hesc.
  destruct (decode_spans_ok spans self [] Hreach) as [Hmid _]; [done|].
  fold mid in Hmid. destruct (Hset _ Hmid Hesc) as [t Ht].
  exists t. split; [done|]. intros HE HS.
  destruct mid as [self' out]. cbn [fst snd] in *.
  rewrite decode_byte_invalid by done.
  unfold error_span_start, start_is_None, span_start.
  rewrite Ht. cbn [andb]. by rewrite Ht.
Qed.

(** ** Fields of a packet frame *)

(** Where a packet frame comes from: an END of the chunk, met outside
    an escape with a non-empty buffer, whose content the frame renders. *)
Lemma decode_spans_packet_origin spans : forall self f,
  f ∈ (decode_spans (self, []) spans).2 -> type f = "slip_packet" ->
  exists pre s e post,
    spans = pre ++ (END, s, e) :: post /\
    escape (decode_spans (self, []) pre).1 = false /\
    buffer (decode_spans (self, []) pre).1 <> [] /\
    data f = packet_data (buffer (decode_spans (self, []) pre).1).
Proof.
  induction spans as [|[[b s] e] spans IH]; intros self f Hin Hty.
  - by apply elem_of_nil in Hin.
  - rewrite decode_spans_cons in Hin.
    destruct (decode_byte_cases self [] b s e)
      as (self1 & new & Hstep & Hcase).
    rewrite Hstep, decode_spans_acc in Hin. cbn [snd app] in Hin.
    apply elem_of_app in Hin as [Hin|Hin].
    + destruct Hcase as [(-> & _)
                        |[(_ & -> & _)
                         |[(_ & -> & Hesc & Hne & ->)|(_ & _ & _ & _ & ->)]]].
      * by apply elem_of_nil in Hin.
      * by apply elem_of_nil in Hin.
      * apply list_elem_of_singleton in Hin. subst f.
        by exists [], s, e, spans.
      * apply list_elem_of_singleton in Hin. subst f. discriminate Hty.
    + destruct (IH self1 f Hin Hty)
        as (pre & s' & e' & post & -> & Hesc & Hne & Hdata).
      exists ((b, s, e) :: pre), s', e', post.
      assert (Hmid : (decode_spans (self, []) ((b, s, e) :: pre)).1 =
                     (decode_spans (self1, []) pre).1).
      { rewrite decode_spans_cons, Hstep. cbn [app].
        by rewrite decode_spans_acc. }
      rewrite Hmid. by repeat split.
Qed.

(** C5, as amended: every slip_packet frame a call of [decode] returns
    comes from an END byte of the chunk and carries exactly two fields:
    [payload_hex], the bytes decoded into the buffer when that END was
    met (a non-empty byte sequence) rendered as uppercase two-digit
    hexadecimal numbers separated by single spaces, a rendering no other
    byte sequence has, and [length], the number of those bytes (0x01,
    0xAB is shown as "01 AB" with length 2).  There is no field named
    [payload]. *)
Theorem packet_frame_fields self frame f :
  reachable self ->
  f ∈ frames_of (decode self frame).2 ->
  type f = "slip_packet" ->
  (exists pre s e post payload,
    _byte_spans frame = pre ++ (END, s, e) :: post /\
    payload = buffer (decode_spans (self, []) pre).1 /\
    escape (decode_spans (self, []) pre).1 = false /\
    payload <> [] /\ Forall is_byte payload /\
    data f !! "payload_hex" = Some (VStr (payload_hex payload)) /\
    data f !! "length" = Some (VInt (Z.of_nat (length payload))) /\
    String.length (payload_hex payload) = (3 * length payload - 1)%nat /\
    (forall Q, Forall is_byte Q ->
       payload_hex Q = payload_hex payload -> Q = payload) /\
    dom (data f) = ({[ "payload_hex"; "length" ]} : gset string) /\
    data f !! "payload" = None) /\
  (forall t0 t1,
     map packet_fields
       (frames_of
          (decode __init__ (data_frame [END; 0x01; 0xAB; END] t0 t1)).2) =
       [("slip_packet", Some (VStr "01 AB"), Some (VInt 2))]).
Proof.
  intros Hreach Hin Hty. split; [|reflexivity].
  apply reachable_ok in Hreach.
  assert (Hdata : in_type frame = "data").
  { destruct (String.eqb_spec (in_type frame) "data") as [Ht|Ht]; [done|].
    apply String.eqb_neq in Ht. unfold decode in Hin. rewrite Ht in Hin.
    by apply elem_of_nil in Hin. }
  rewrite decode_data_frames in Hin by done.
  destruct (decode_spans_packet_origin _ self f Hin Hty)
    as (pre & s & e & post & Hsplit & Hesc & Hne & Hd).
  destruct (decode_spans_ok pre self [] Hreach) as [[Hbytes _] _]; [done|].
  exists pre, s, e, post, (buffer (decode_spans (self, []) pre).1).
  rewrite Hd.
  split; [done|]. split; [done|]. split; [done|]. split; [done|].
  split; [done|].
  split; [unfold packet_data; apply lookup_insert_eq|].
  split; [unfold packet_data; by rewrite lookup_insert_ne, lookup_insert_eq|].
  split; [by apply payload_hex_length|].
  split; [intros Q HQ E; by apply payload_hex_inj|].
  split; [apply packet_data_dom|apply packet_data_payload].
Qed.

(** ** No flush without END *)

Lemma decode_byte_packet self b s e f :
  f ∈ (decode_byte (self, []) (b, s, e)).2 -> type f = "slip_packet" ->
  b = END /\ escape self = false /\ buffer self <> [].
Proof.
  destruct (decode_byte_cases self [] b s e) as (self' & new & -> & Hcase).
  cbn [snd app]. intros Hin Hty.
  destruct Hcase as [(-> & _)
                    |[(_ & -> & _)
                     |[(_ & -> & Hesc & Hne & _)|(_ & _ & _ & _ & ->)]]].
  - by apply elem_of_nil in Hin.
  - by apply elem_of_nil in Hin.
  - done.
  - apply list_elem_of_singleton in Hin. subst f. discriminate Hty.
Qed.

Lemma decode_spans_no_END spans : forall self f,
  Forall (fun sp => sp.1.1 <> END) spans ->
  f ∈ (decode_spans (self, []) spans).2 -> type f <> "slip_packet".
Proof.
  induction spans as [|[[b s] e] spans IH]; intros self f Hall Hin Hty.
  - by apply elem_of_nil in Hin.
  - apply Forall_cons in Hall as [Hb Hall]. cbn in Hb.
    rewrite decode_spans_cons in Hin.
    destruct (decode_byte (self, []) (b, s, e)) as [self' new] eqn:Hstep.
    rewrite decode_spans_acc in Hin. cbn [snd] in Hin.
    apply elem_of_app in Hin as [Hin|Hin].
    + destruct (decode_byte_packet self b s e f) as [HE _]; [|done..].
      by rewrite Hstep.
    + by apply (IH self' f).
Qed.

(** C8: a slip_packet frame is emitted only by an END byte met outside
    an escape with a non-empty buffer; bytes without an END never emit
    one; and the bytes of a packet in progress, with no END after them,
    are kept in the buffer while the call returns [None]: neither a
    packet nor an error is produced for them. *)
Theorem no_flush_without_END self P t0 t1 :
  escape self = false -> Forall is_byte P ->
  (forall self0 b s e f,
     f ∈ (decode_byte (self0, []) (b, s, e)).2 -> type f = "slip_packet" ->
     b = END /\ escape self0 = false /\ buffer self0 <> []) /\
  (forall self0 spans f,
     Forall (fun sp => sp.1.1 <> END) spans ->
     f ∈ (decode_spans (self0, []) spans).2 -> type f <> "slip_packet") /\
  decode self (data_frame (slip_encode P) t0 t1) =
    (Build_Hla false (buffer self ++ P)
       (match P with [] => frame_start_time self | _ => started t0 self end),
     None).
Proof.
  intros Hesc HP. split; [|split].
  - apply decode_byte_packet.
  - intros self0 spans. apply decode_spans_no_END.
  - rewrite decode_data, byte_spans_data_frame by done.
    by rewrite decode_spans_encode.
Qed.

(** ** Chunk boundaries *)

Lemma decode_byte_untimed self self' out out' b s e s' e' :
  same_untimed self self' -> map untimed out = map untimed out' ->
  same_untimed (decode_byte (self, out) (b, s, e)).1
    (decode_byte (self', out') (b, s', e')).1 /\
  map untimed (decode_byte (self, out) (b, s, e)).2 =
    map untimed (decode_byte (self', out') (b, s', e')).2.
Proof.
  destruct self as [esc buf st], self' as [esc' buf' st'].
  intros (Hesc & Hbuf & Hst) Hout. cbn in Hesc, Hbuf, Hst. subst esc' buf'.
  unfold decode_byte, same_untimed, start_is_None, _emit_packet_frame in *.
  destruct st as [t|], st' as [t'|]; try discriminate Hst;
    destruct esc, (b =? END), (b =? ESC), (b =? ESC_END), (b =? ESC_ESC),
      buf as [|c buf];
    cbn; rewrite ?map_app, ?Hout; done.
Qed.

(** The frames without their time spans, and the state up to the value
    of its start time, depend on the byte values only. *)
Lemma decode_spans_untimed spans spans' :
  map (fun sp => sp.1.1) spans = map (fun sp => sp.1.1) spans' ->
  forall self self' out out',
  same_untimed self self' -> map untimed out = map untimed out' ->
  same_untimed (decode_spans (self, out) spans).1
    (decode_spans (self', out') spans').1 /\
  map untimed (decode_spans (self, out) spans).2 =
    map untimed (decode_spans (self', out') spans').2.
Proof.
  revert spans'.
  induction spans as [|[[b s] e] spans IH];
    intros [|[[b' s'] e'] spans'] Hmap; try discriminate Hmap; [done|].
  injection Hmap as -> Hmap. intros self self' out out' Hsame Hout.
  rewrite !decode_spans_cons.
  destruct (decode_byte_untimed self self' out out' b' s e s' e' Hsame Hout)
    as [Hsame1 Hout1].
  destruct (decode_byte (self, out) (b', s, e)) as [self1 out1].
  destruct (decode_byte (self', out') (b', s', e')) as [self1' out1'].
  by apply IH.
Qed.

Lemma same_untimed_refl self : same_untimed self self.
Proof. by repeat split. Qed.

(** C4: a sequence of byte events gives the same final state and the
    same frames, in the same order, whether one loop consumes it whole
    or it is cut in two; a chunk cut into any number of chunks of the
    same time span, one call of [decode] each, gives the state and the
    frames of the single call; and when the chunks carry time spans of
    their own, the escape flag, the buffer, whether a start time is
    set, and the type and data of every frame are still those of the
    single call.  END, 0x01 in one call and 0x02, END in the next give
    the one packet [0x01; 0x02] of the single call. *)
Theorem chunk_boundary_independence self :
  (forall spans1 spans2,
     let r1 := decode_spans (self, []) spans1 in
     let r2 := decode_spans (r1.1, []) spans2 in
     decode_spans (self, []) (spans1 ++ spans2) = (r2.1, r1.2 ++ r2.2)) /\
  (forall (pieces : list (list Z)) t0 t1,
     decode_calls self (map (fun p => data_frame p t0 t1) pieces) =
       decode_calls self [data_frame (concat pieces) t0 t1]) /\
  (forall (chunks : list (list Z * Time * Time)) t0 t1,
     let split := decode_calls self (map chunk_frame chunks) in
     let whole :=
       decode_calls self
         [data_frame (concat (map (fun c => c.1.1) chunks)) t0 t1] in
     same_untimed split.1 whole.1 /\
     map untimed split.2 = map untimed whole.2) /\
  (forall t0 t1 t2 t3,
     decode_calls __init__
       [data_frame [END; 0x01] t0 t1; data_frame [0x02; END] t2 t3] =
       (__init__, [slip_packet [0x01; 0x02] t0 t3]) /\
     decode_calls __init__ [data_frame [END; 0x01; 0x02; END] t0 t3] =
       (__init__, [slip_packet [0x01; 0x02] t0 t3])).
Proof.
  split; [|split; [|split]]; [| | |by split].
  - intros spans1 spans2. cbv zeta. rewrite decode_spans_app.
    destruct (decode_spans (self, []) spans1) as [self1 out1].
    cbn [fst snd]. by rewrite (decode_spans_acc spans2 self1 out1).
  - intros pieces t0 t1.
    change [data_frame (concat pieces) t0 t1]
      with (map chunk_frame [(concat pieces, t0, t1)]).
    rewrite (decode_calls_chunks self [(concat pieces, t0, t1)]).
    replace (map (fun p => data_frame p t0 t1) pieces)
      with (map chunk_frame (map (fun p => (p, t0, t1)) pieces))
      by (by rewrite map_map).
    rewrite decode_calls_chunks. f_equal.
    cbn [map concat fst snd]. rewrite app_nil_r, map_map. cbn [fst snd].
    by rewrite concat_map.
  - intros chunks t0 t1 split whole. subst split whole.
    change [data_frame (concat (map (fun c => c.1.1) chunks)) t0 t1]
      with (map chunk_frame
              [(concat (map (fun c => c.1.1) chunks), t0, t1)]).
    rewrite (decode_calls_chunks self
               [(concat (map (fun c => c.1.1) chunks), t0, t1)]).
    rewrite decode_calls_chunks.
    apply decode_spans_untimed; [|apply same_untimed_refl|done].
    cbn [map concat fst snd]. rewrite app_nil_r, map_map. cbn [fst snd].
    rewrite map_id. rewrite concat_map, map_map.
    f_equal. apply map_ext. intros c. rewrite map_map. cbn [fst snd].
    by rewrite map_id.
Qed.


(** * Further properties of the analyzer *)

(** ** Data frames without bytes *)

(** X1: a data frame whose dictionary has no "data" key, or an empty
    one, returns [None] and leaves the analyzer as it was, also in the
    middle of a packet or of an escape. *)
Theorem decode_no_bytes self frame :
  in_type frame = "data" ->
  in_data frame !! "data" = None \/ in_data frame !! "data" = Some [] ->
  _byte_spans frame = [] /\ decode self frame = (self, None).
Proof.
  intros Ht Hd.
  assert (Hs : _byte_spans frame = []).
  { unfold _byte_spans. by destruct Hd as [-> | ->]. }
  split; [done|]. by rewrite decode_data, Hs.
Qed.

(** ** The state between two bytes *)

(** X2: in every state reached from construction by calls of [decode],
    and after any further bytes of a call, the buffer holds values
    0..255 only, whatever integers the frames carried, and
    [frame_start_time] is [None] exactly when the escape flag is false
    and the buffer is empty. *)
Theorem state_invariant self spans :
  reachable self ->
  let mid := (decode_spans (self, []) spans).1 in
  Forall is_byte (buffer mid) /\
  (frame_start_time mid = None <-> escape mid = false /\ buffer mid = []).
Proof.
  intros Hreach. apply reachable_ok in Hreach.
  by destruct (decode_spans_ok spans self [] Hreach) as [Hmid _].
Qed.

(** ** Integers wider than a byte *)

Lemma land_mod b : Z.land b 0xFF = b mod 256.
Proof. change 0xFF with (Z.ones 8). by rewrite Z.land_ones by lia. Qed.

Lemma decode_spans_plain L : forall self out s e,
  escape self = false -> Forall (fun b => b <> END /\ b <> ESC) L ->
  decode_spans (self, out) (map (fun b => (b, s, e)) L) =
    (Build_Hla false (buffer self ++ map (fun b => b mod 256) L)
       (match L with [] => frame_start_time self | _ => started s self end),
     out).
Proof.
  induction L as [|b L IH]; intros self out s e Hesc HL.
  - cbn. rewrite app_nil_r. destruct self; cbn in *; by subst.
  - apply Forall_cons in HL as [[HE HS] HL]. cbn [map].
    rewrite decode_spans_cons, decode_byte_plain, IH by done.
    cbn [buffer frame_start_time]. rewrite land_mod, <- app_assoc.
    cbn [app]. f_equal. f_equal. destruct L; [done|]. apply started_idem.
Qed.

(** X3: the bytes are classified before they are masked.  For any
    non-empty list of integers, none equal to 0xC0 or 0xDB, the chunk
    END + L + END from the initial state returns the one packet whose
    payload is [L] reduced modulo 256: its [payload_hex] is the
    rendering of that byte sequence, which no other byte sequence has,
    and its [length] is the length of [L]; so 0x1C0 is stored as a
    literal 0xC0 and does not end the packet (0x1C0, -1 is shown as
    "C0 FF"). *)
Theorem wide_values_masked L t0 t1 :
  Forall (fun b => b <> END /\ b <> ESC) L -> L <> [] ->
  decode __init__ (data_frame ([END] ++ L ++ [END]) t0 t1) =
    (__init__, Some [slip_packet (map (fun b => b mod 256) L) t0 t1]) /\
  Forall is_byte (map (fun b => b mod 256) L) /\
  (exists f,
     frames_of
       (decode __init__ (data_frame ([END] ++ L ++ [END]) t0 t1)).2 = [f] /\
     type f = "slip_packet" /\
     data f !! "payload_hex" =
       Some (VStr (payload_hex (map (fun b => b mod 256) L))) /\
     data f !! "length" = Some (VInt (Z.of_nat (length L)))) /\
  (forall Q, Forall is_byte Q ->
     payload_hex Q = payload_hex (map (fun b => b mod 256) L) ->
     Q = map (fun b => b mod 256) L) /\
  map packet_fields
    (frames_of
       (decode __init__ (data_frame [END; 0x1C0; -1; END] t0 t1)).2) =
    [("slip_packet", Some (VStr "C0 FF"), Some (VInt 2))].
Proof.
  intros HL Hne.
  assert (Hdec : decode __init__ (data_frame ([END] ++ L ++ [END]) t0 t1) =
            (__init__,
             Some [slip_packet (map (fun b => b mod 256) L) t0 t1])).
  { rewrite decode_data, byte_spans_data_frame by done.
    cbn [app map]. rewrite decode_spans_cons, decode_byte_boundary by done.
    rewrite map_app, decode_spans_app, decode_spans_plain by done.
    cbn [map]. rewrite decode_spans_cons, decode_byte_END by done.
    destruct L as [|b L]; [done|]. reflexivity. }
  assert (Hbytes : Forall is_byte (map (fun b => b mod 256) L)).
  { apply Forall_map, Forall_forall. intros b _.
    unfold is_byte. apply Z.mod_pos_bound. lia. }
  split; [exact Hdec|]. split; [exact Hbytes|]. split; [|split].
  - exists (slip_packet (map (fun b => b mod 256) L) t0 t1).
    rewrite Hdec. split; [done|]. split; [done|]. split; read_fields.
  - intros Q HQ E. by apply payload_hex_inj.
  - reflexivity.
Qed.

(** ** END as a point of resynchronisation *)

Lemma decode_byte_END_resets self out s e :
  (decode_byte (self, out) (END, s, e)).1 = _reset_state.
Proof.
  destruct (escape self) eqn:Hesc.
  - by rewrite decode_byte_invalid.
  - by rewrite decode_byte_END.
Qed.

(** X4: an END byte leaves the analyzer in its initial state whatever
    the state before it, in or out of an escape; the bytes after an END
    are decoded as by a fresh analyzer, and their frames follow those
    returned up to the END. *)
Theorem resync_on_END self pre s e post :
  let upto := decode_spans (self, []) (pre ++ [(END, s, e)]) in
  let rest := decode_spans (_reset_state, []) post in
  upto.1 = _reset_state /\
  decode_spans (self, []) (pre ++ (END, s, e) :: post) =
    (rest.1, upto.2 ++ rest.2).
Proof.
  cbv zeta.
  assert (Hup : (decode_spans (self, []) (pre ++ [(END, s, e)])).1 =
                  _reset_state).
  { rewrite decode_spans_app.
    destruct (decode_spans (self, []) pre) as [self1 out1].
    rewrite decode_spans_cons. cbn [decode_spans fold_left].
    apply decode_byte_END_resets. }
  split; [done|].
  change (pre ++ (END, s, e) :: post) with (pre ++ [(END, s, e)] ++ post).
  rewrite app_assoc, decode_spans_app.
  destruct (decode_spans (self, []) (pre ++ [(END, s, e)])) as [self1 out1].
  cbn [fst snd] in *. subst self1. apply decode_spans_acc.
Qed.

(** ** Frames that are not data, inside a session *)

Lemma fold_decode_call_data_only frames : forall acc,
  fold_left decode_call frames acc =
    fold_left decode_call (List.filter is_data_frame frames) acc.
Proof.
  induction frames as [|frame frames IH]; intros [self out]; [done|].
  cbn [List.filter fold_left]. unfold is_data_frame at 1.
  destruct (String.eqb_spec (in_type frame) "data") as [Ht|Ht].
  - cbn [fold_left]. apply IH.
  - rewrite <- IH. f_equal. unfold decode_call. cbn [fst snd].
    apply String.eqb_neq in Ht. unfold decode. rewrite Ht. cbn.
    by rewrite app_nil_r.
Qed.

(** X5: frames of other types, anywhere in a session, change neither
    the frames returned nor the final state: the session is that of its
    data frames alone. *)
Theorem session_ignores_non_data self frames :
  decode_calls self frames =
    decode_calls self (List.filter is_data_frame frames).
Proof. apply fold_decode_call_data_only. Qed.

(** ** Time spans *)


Lemma decode_byte_times self out b s e (T : option Time) :
  let good (f : AnalyzerFrame Time) :=
    end_time f = e /\
    (start_time f = e \/ start_time f = s \/ T = Some (start_time f)) in
  let known (st : option Time) := st = None \/ st = Some s \/ st = T in
  known (frame_start_time self) -> Forall good out ->
  known (frame_start_time (decode_byte (self, out) (b, s, e)).1) /\
  Forall good (decode_byte (self, out) (b, s, e)).2.
Proof.
  intros good known Hknown Hout. subst good known.
  destruct self as [esc buf st]. cbn in Hknown.
  unfold decode_byte, start_is_None, _emit_packet_frame, _emit_error_frame,
    span_start.
  destruct st as [t|], esc, (b =? END), (b =? ESC), (b =? ESC_END),
    (b =? ESC_ESC), buf as [|c buf]; cbn;
    (split; [tauto|]);
    try done;
    try (apply Forall_app; split; [done|]; constructor; [|done]; cbn;
         split; [done|]; try destruct (time_truthy _);
         intuition congruence).
Qed.

(** X7: every frame a call of [decode] returns ends at the end time of
    the input frame, and starts at that end time, at the input frame's
    start time, or at the start time the analyzer had stored before the
    call. *)
Theorem returned_frame_span self frame f :
  f ∈ frames_of (decode self frame).2 ->
  end_time f = in_end_time frame /\
  (start_time f = in_end_time frame \/
   start_time f = in_start_time frame \/
   frame_start_time self = Some (start_time f)).
Proof.
  destruct (String.eqb_spec (in_type frame) "data") as [Ht|Ht].
  - rewrite decode_data_frames by done.
    set (s := in_start_time frame). set (e := in_end_time frame).
    set (good := fun f : AnalyzerFrame Time =>
      end_time f = e /\
      (start_time f = e \/ start_time f = s \/
       frame_start_time self = Some (start_time f))).
    set (known := fun st : option Time =>
      st = None \/ st = Some s \/ st = frame_start_time self).
    assert (Hloop : forall bytes self' out,
              known (frame_start_time self') -> Forall good out ->
              Forall good
                (decode_spans (self', out)
                   (map (fun b => (b, s, e)) bytes)).2).
    { induction bytes as [|b bytes IH]; intros self' out Hk Hout; [done|].
      cbn [map]. rewrite decode_spans_cons.
      destruct (decode_byte_times self' out b s e (frame_start_time self)
                  Hk Hout) as [Hk' Hout'].
      destruct (decode_byte (self', out) (b, s, e)) as [self1 out1].
      by apply IH. }
    intros Hin.
    assert (Hsp : _byte_spans frame =
              map (fun b => (b, s, e)) (default [] (in_data frame !! "data"))).
    { unfold _byte_spans. by destruct (default [] _). }
    rewrite Hsp in Hin.
    assert (Hall : Forall good
              (decode_spans (self, [])
                 (map (fun b => (b, s, e))
                    (default [] (in_data frame !! "data")))).2).
    { apply Hloop; [by right; right|constructor]. }
    exact (proj1 (Forall_forall _ _) Hall f Hin).
  - apply String.eqb_neq in Ht. unfold decode. rewrite Ht. cbn.
    intros Hin. by apply elem_of_nil in Hin.
Qed.

(** ** What an error discards *)

(** X8: the bytes buffered before an invalid escape appear in no
    packet.  END, the encoding of [P], ESC, an invalid continuation
    [b], the encoding of [Q], END returns the error frame for [b]
    (with the message "Invalid escape sequence after 0xDB" and [b]
    under [byte]) and then only the packet [Q], with the [payload_hex]
    and the [length] of [Q] alone (nothing more when [Q] is empty); the
    rendering tells [Q] from every other byte sequence.  With [b] = END
    the END is taken as the invalid continuation: it yields the error
    and no packet for [P]: END, 0x01, 0x02, ESC, END, 0x03, END gives
    the error with byte 0xC0 and the packet shown as "03". *)
Theorem error_discards_buffer P Q b t0 t1 :
  Forall is_byte P -> Forall is_byte Q -> b <> ESC_END -> b <> ESC_ESC ->
  decode __init__
    (data_frame ([END] ++ slip_encode P ++ [ESC; b] ++ slip_encode Q ++ [END])
       t0 t1) =
    (__init__,
     Some (slip_error b t0 t1 ::
           match Q with [] => [] | _ => [slip_packet Q t0 t1] end)) /\
  (exists err rest,
     frames_of
       (decode __init__
          (data_frame
             ([END] ++ slip_encode P ++ [ESC; b] ++ slip_encode Q ++ [END])
             t0 t1)).2 = err :: rest /\
     error_fields err =
       ("slip_error", Some (VStr "Invalid escape sequence after 0xDB"),
        Some (VInt b)) /\
     map packet_fields rest =
       match Q with
       | [] => []
       | _ => [("slip_packet", Some (VStr (payload_hex Q)),
                Some (VInt (Z.of_nat (length Q))))]
       end) /\
  (forall R, Forall is_byte R -> payload_hex R = payload_hex Q -> R = Q) /\
  (let out :=
     frames_of
       (decode __init__
          (data_frame [END; 0x01; 0x02; ESC; END; 0x03; END] t0 t1)).2 in
   map error_fields (take 1 out) =
     [("slip_error", Some (VStr "Invalid escape sequence after 0xDB"),
       Some (VInt 0xC0))] /\
   map packet_fields (drop 1 out) =
     [("slip_packet", Some (VStr "03"), Some (VInt 1))]).
Proof.
  intros HP HQ HE HS.
  assert (Hdec : decode __init__
            (data_frame
               ([END] ++ slip_encode P ++ [ESC; b] ++ slip_encode Q ++ [END])
               t0 t1) =
            (__init__,
             Some (slip_error b t0 t1 ::
                   match Q with [] => [] | _ => [slip_packet Q t0 t1] end))).
  { rewrite decode_data, byte_spans_data_frame by done.
    cbn [app map]. rewrite decode_spans_cons, decode_byte_boundary by done.
    rewrite map_app, decode_spans_app, decode_spans_encode by done.
    cbn [app map].
    rewrite decode_spans_cons, decode_byte_ESC by done.
    rewrite decode_spans_cons, decode_byte_invalid by done.
    rewrite map_app, decode_spans_app, decode_spans_encode by done.
    cbn [map]. rewrite decode_spans_cons, decode_byte_END by done.
    unfold error_span_start, start_is_None, started, span_start,
      _emit_packet_frame, slip_error, slip_packet, __init__.
    cbn [buffer frame_start_time app fst snd].
    destruct P as [|p P], Q as [|q Q]; cbn; reflexivity. }
  split; [exact Hdec|]. split; [|split].
  - exists (slip_error b t0 t1),
      (match Q with [] => [] | _ => [slip_packet Q t0 t1] end).
    rewrite Hdec. split; [done|].
    split; [read_fields|].
    destruct Q as [|q Q]; [done|]. cbn [map]. read_fields.
  - intros R HR E. by apply payload_hex_inj.
  - split; reflexivity.
Qed.

(** ** How many frames a call can return *)

Lemma decode_byte_counts self b s e :
  let r := decode_byte (self, []) (b, s, e) in
  (length r.2 <= 1)%nat /\
  (length (frames_of_type "slip_packet" r.2) <=
     if (b =? END)%Z then 1 else 0)%nat /\
  (length (frames_of_type "slip_error" r.2) + (if escape r.1 then 1 else 0) <=
     (if escape self then 1 else 0) + (if (b =? ESC)%Z then 1 else 0))%nat.
Proof.
  destruct self as [esc buf st].
  unfold decode_byte, start_is_None, _emit_packet_frame, _emit_error_frame,
    frames_of_type.
  destruct st as [t|], esc, (b =? END), (b =? ESC), (b =? ESC_END),
    (b =? ESC_ESC), buf as [|c buf]; cbn; lia.
Qed.

Lemma count_occ_eqb (x b : Z) (l : list Z) :
  count_occ Z.eq_dec (b :: l) x =
    ((if (b =? x)%Z then 1 else 0) + count_occ Z.eq_dec l x)%nat.
Proof.
  destruct (Z.eqb_spec b x) as [->|Hne].
  - by rewrite count_occ_cons_eq.
  - by rewrite count_occ_cons_neq.
Qed.

Lemma decode_spans_counts bytes s e : forall self,
  let out := (decode_spans (self, []) (map (fun b => (b, s, e)) bytes)).2 in
  (length out <= length bytes)%nat /\
  (length (frames_of_type "slip_packet" out) <=
     count_occ Z.eq_dec bytes END)%nat /\
  (length (frames_of_type "slip_error" out) <=
     count_occ Z.eq_dec bytes ESC + if escape self then 1 else 0)%nat.
Proof.
  induction bytes as [|b bytes IH]; intros self; [cbn; lia|].
  cbn [map]. rewrite decode_spans_cons.
  pose proof (decode_byte_counts self b s e) as Hstep.
  destruct (decode_byte (self, []) (b, s, e)) as [self1 new].
  cbv zeta in Hstep. cbn [fst snd] in Hstep.
  rewrite decode_spans_acc. cbv zeta. cbn [snd].
  specialize (IH self1). cbv zeta in IH.
  unfold frames_of_type in *.
  rewrite length_app, !List.filter_app, !length_app, !count_occ_eqb.
  cbn [length]. lia.
Qed.

(** X9: a call of [decode] returns at most one frame per byte of the
    chunk, at most one packet per END byte in it, and at most one error
    per ESC byte in it, plus one when the call starts inside an
    escape. *)
Theorem frame_count_bounds self frame :
  let bytes := default [] (in_data frame !! "data") in
  let out := frames_of (decode self frame).2 in
  (length out <= length bytes)%nat /\
  (length (frames_of_type "slip_packet" out) <=
     count_occ Z.eq_dec bytes END)%nat /\
  (length (frames_of_type "slip_error" out) <=
     count_occ Z.eq_dec bytes ESC + if escape self then 1 else 0)%nat.
Proof.
  cbv zeta. destruct (String.eqb_spec (in_type frame) "data") as [Ht|Ht].
  - rewrite decode_data_frames by done.
    assert (Hsp : _byte_spans frame =
              map (fun b => (b, in_start_time frame, in_end_time frame))
                (default [] (in_data frame !! "data"))).
    { unfold _byte_spans. by destruct (default [] _). }
    rewrite Hsp. apply decode_spans_counts.
  - apply String.eqb_neq in Ht. unfold decode. rewrite Ht. cbn. lia.
Qed.

(** ** No byte is invented *)

Lemma error_data_length message b : error_data message b !! "length" = None.
Proof.
  unfold error_data. by rewrite !lookup_insert_ne, lookup_empty.
Qed.

Lemma total_length_app (out1 out2 : list (AnalyzerFrame Time)) :
  total_length (out1 ++ out2) = total_length out1 + total_length out2.
Proof.
  unfold total_length. induction out1 as [|f out1 IH]; [done|].
  cbn [app fold_right]. rewrite IH. lia.
Qed.

Lemma decode_byte_conserves self b s e :
  let r := decode_byte (self, []) (b, s, e) in
  total_length r.2 + Z.of_nat (length (buffer r.1)) <=
    Z.of_nat (length (buffer self)) + 1.
Proof.
  cbv zeta. destruct self as [esc buf st].
  unfold decode_byte, start_is_None, _emit_packet_frame, _emit_error_frame.
  destruct st as [t|], esc, (b =? END), (b =? ESC), (b =? ESC_END),
    (b =? ESC_ESC), buf as [|c buf];
    cbn -[packet_data error_data]; unfold frame_length;
    cbn -[packet_data error_data];
    rewrite ?packet_data_length, ?error_data_length, ?length_app;
    cbn [length]; lia.
Qed.

Lemma decode_spans_conserves spans : forall self,
  let r := decode_spans (self, []) spans in
  total_length r.2 + Z.of_nat (length (buffer r.1)) <=
    Z.of_nat (length (buffer self)) + Z.of_nat (length spans).
Proof.
  induction spans as [|[[b s] e] spans IH]; intros self; [cbn; lia|].
  cbv zeta. rewrite decode_spans_cons.
  pose proof (decode_byte_conserves self b s e) as Hstep.
  destruct (decode_byte (self, []) (b, s, e)) as [self1 new].
  cbv zeta in Hstep. cbn [fst snd] in Hstep.
  rewrite decode_spans_acc. cbn [fst snd].
  specialize (IH self1). cbv zeta in IH.
  rewrite total_length_app. cbn [length]. lia.
Qed.

(** X10: the [length] fields of the frames a call returns, together
    with the bytes left in the buffer, never exceed the bytes that were
    in the buffer before the call plus the bytes of the chunk: the
    analyzer reports no payload byte it has not received. *)
Theorem no_byte_invented self frame :
  let bytes := default [] (in_data frame !! "data") in
  let r := decode self frame in
  total_length (frames_of r.2) + Z.of_nat (length (buffer r.1)) <=
    Z.of_nat (length (buffer self)) + Z.of_nat (length bytes).
Proof.
  cbv zeta. destruct (String.eqb_spec (in_type frame) "data") as [Ht|Ht].
  - rewrite decode_data_frames, decode_data_state by done.
    assert (Hsp : _byte_spans frame =
              map (fun b => (b, in_start_time frame, in_end_time frame))
                (default [] (in_data frame !! "data"))).
    { unfold _byte_spans. by destruct (default [] _). }
    pose proof (decode_spans_conserves (_byte_spans frame) self) as Hc.
    cbv zeta in Hc. rewrite Hsp in Hc at 3. by rewrite length_map in Hc.
  - apply String.eqb_neq in Ht. unfold decode. rewrite Ht. cbn. lia.
Qed.

(** ** The display templates and the frames *)

Lemma error_data_dom message b :
  dom (error_data message b) = ({[ "message"; "byte" ]} : gset string).
Proof.
  unfold error_data. rewrite !dom_insert_L, dom_empty_L. set_solver.
Qed.

(** X11: the keys of [result_types] are exactly the types of the frames
    the analyzer can return. *)
Theorem result_types_match (t0 t1 : Time) ty :
  ty ∈ dom result_types <->
  exists self frame f,
    reachable self /\ f ∈ frames_of (decode self frame).2 /\ type f = ty.
Proof.
  assert (Hdom : dom result_types =
                   ({[ "slip_packet"; "slip_error" ]} : gset string)).
  { unfold result_types. rewrite !dom_insert_L, dom_empty_L. set_solver. }
  rewrite Hdom. split.
  - intros [Hty|Hty]%elem_of_union; apply elem_of_singleton in Hty; subst ty.
    + exists __init__, (data_frame [0x01; END] t0 t1), (slip_packet [0x01] t0 t1).
      split; [apply reachable_init|]. split; [apply list_elem_of_here|done].
    + exists __init__, (data_frame [ESC; END] t0 t1), (slip_error END t0 t1).
      split; [apply reachable_init|]. split; [apply list_elem_of_here|done].
  - intros (self & frame & f & Hreach & Hin & <-).
    apply reachable_ok in Hreach.
    destruct (decode_ok self frame Hreach) as [_ Hall].
    apply (proj1 (Forall_forall _ _) Hall) in Hin.
    destruct Hin as [(payload & _ & _ & -> & _)|(b & -> & _)]; set_solver.
Qed.

(** X12: for every frame the analyzer returns, [result_types] has a
    format string under the frame's type; the format string has a
    placeholder [{{data.<key>}}] (or [{{data.<key>:...}}]) for each key
    of the frame's data, and as many placeholders as the data has
    keys. *)
Theorem result_types_fields self frame f :
  reachable self -> f ∈ frames_of (decode self frame).2 ->
  exists fmt,
    result_types !! type f ≫= (fun entry => entry !! "format") = Some fmt /\
    (forall k, k ∈ dom (data f) -> names_field fmt k = true) /\
    count_occurs "{{data." fmt = size (dom (data f)).
Proof.
  intros Hreach Hin. apply reachable_ok in Hreach.
  destruct (decode_ok self frame Hreach) as [_ Hall].
  apply (proj1 (Forall_forall _ _) Hall) in Hin.
  destruct Hin as [(payload & _ & _ & Hty & Hdata)|(b & Hty & Hdata)];
    rewrite Hty, Hdata.
  - exists "SLIP len={{data.length}}: {{data.payload_hex}}".
    split; [reflexivity|]. rewrite packet_data_dom. split.
    + intros k [Hk|Hk]%elem_of_union; apply elem_of_singleton in Hk;
        subst k; reflexivity.
    + reflexivity.
  - exists "SLIP ERROR: {{data.message}} (byte=0x{{data.byte:02X}})".
    split; [reflexivity|]. rewrite error_data_dom. split.
    + intros k [Hk|Hk]%elem_of_union; apply elem_of_singleton in Hk;
        subst k; reflexivity.
    + reflexivity.
Qed.

(** ** The rendering of payloads *)

Lemma hex_digit_alphabet d : hex_digit d ∈ hex_alphabet.
Proof.
  unfold hex_digit, hex_alphabet.
  repeat match goal with
         | |- context [match ?x with _ => _ end] => destruct x
         end;
    cbn; repeat first [apply list_elem_of_here | apply list_elem_of_further].
Qed.

Lemma payload_hex_alphabet P :
  Forall (fun c => c ∈ hex_alphabet) (list_ascii_of_string (payload_hex P)).
Proof.
  induction P as [|b [|c P] IH].
  - constructor.
  - rewrite payload_hex_one. unfold format_02X. cbn [list_ascii_of_string].
    repeat (constructor; [apply hex_digit_alphabet|]). constructor.
  - rewrite payload_hex_cons. cbn [list_ascii_of_string].
    repeat (constructor; [apply hex_digit_alphabet|]).
    constructor; [|done].
    unfold hex_alphabet. cbn.
    repeat first [apply list_elem_of_here | apply list_elem_of_further].
Qed.

(** X13: the [payload_hex] of a byte sequence is made of the characters
    0-9, A-F and the space only, has three characters per byte less one,
    and two byte sequences have the same rendering only if they are
    equal. *)
Theorem payload_hex_rendering P Q :
  Forall is_byte P -> Forall is_byte Q ->
  Forall (fun c => c ∈ hex_alphabet) (list_ascii_of_string (payload_hex P)) /\
  String.length (payload_hex P) = (3 * length P - 1)%nat /\
  (payload_hex P = payload_hex Q <-> P = Q).
Proof.
  intros HP HQ. split; [apply payload_hex_alphabet|]. split.
  - destruct P as [|b P]; [done|]. by apply payload_hex_length.
  - split; [by apply payload_hex_inj|by intros ->].
Qed.

(** ** The reachable states, exactly *)

(** X14: the invariant of the state is tight: a state is reached from
    construction by calls of [decode] if and only if its buffer holds
    bytes only and its [frame_start_time] is [None] exactly when the
    escape flag is false and the buffer is empty. *)
Theorem reachable_iff_state_ok self : reachable self <-> state_ok self.
Proof.
  split; [apply reachable_ok|].
  destruct self as [esc buf [t|]]; intros [Hbytes Hstart];
    cbn [escape buffer frame_start_time] in *.
  - assert (Hprog : esc = true \/ buf <> []).
    { destruct esc; [by left|right]. intros ->.
      by pose proof (proj2 Hstart (conj eq_refl eq_refl)). }
    assert (Hrun : decode_spans (_reset_state, [])
                     (map (fun b => (b, t, t)) (slip_encode buf)) =
                   (Build_Hla false buf
                      (match buf with [] => None | _ => Some t end), [])).
    { rewrite decode_spans_encode by done. by destruct buf. }
    destruct esc.
    + assert (Hdec : (decode __init__
                        (data_frame (slip_encode buf ++ [ESC]) t t)).1 =
                     Build_Hla true buf (Some t)).
      { rewrite decode_data_state, byte_spans_data_frame by done.
        unfold __init__. rewrite map_app, decode_spans_app, Hrun.
        cbn [map]. rewrite decode_spans_cons, decode_byte_ESC by done.
        cbn [decode_spans fold_left fst buffer]. unfold started.
        cbn [frame_start_time]. by destruct buf. }
      rewrite <- Hdec. apply reachable_decode, reachable_init.
    + destruct Hprog as [|Hne]; [done|].
      assert (Hdec : (decode __init__ (data_frame (slip_encode buf) t t)).1 =
                     Build_Hla false buf (Some t)).
      { rewrite decode_data_state, byte_spans_data_frame by done.
        unfold __init__. rewrite Hrun. by destruct buf. }
      rewrite <- Hdec. apply reachable_decode, reachable_init.
  - destruct (proj1 Hstart eq_refl) as [-> ->]. apply reachable_init.
Qed.

(** ** Empty packets *)

Lemma decode_spans_frames_any Ps : forall out s e,
  Forall (Forall is_byte) Ps ->
  decode_spans (_reset_state, out)
    (map (fun b => (b, s, e))
       (concat (map (fun P => slip_encode P ++ [END]) Ps))) =
    (_reset_state,
     out ++ map (fun P => slip_packet P s e) (List.filter has_bytes Ps)).
Proof.
  induction Ps as [|P Ps IH]; intros out s e HPs.
  - cbn. by rewrite app_nil_r.
  - apply Forall_cons in HPs as [HP HPs].
    cbn [map concat List.filter]. rewrite map_app, decode_spans_app.
    destruct P as [|b P].
    + cbn [slip_encode map concat app has_bytes].
      rewrite decode_spans_cons, decode_byte_boundary by done.
      cbn [decode_spans fold_left]. by apply IH.
    + rewrite decode_spans_frame by done. cbn [has_bytes map].
      rewrite IH by done. by rewrite <- app_assoc.
Qed.

(** X15: a chunk of encoded packets, each closed by an END, fed to the
    analyzer in its initial state returns the packets that have at least
    one byte, in order, and nothing for the empty ones: the i-th frame
    has the [payload_hex] and the [length] of the i-th non-empty
    payload, and the rendering tells the payloads apart; no leading END
    is needed, and the analyzer ends in its initial state.  0x01, END,
    END, 0xDB, 0xDC, 0x02, END gives the packets shown as "01" and
    "C0 02". *)
Theorem empty_packets_dropped Ps t0 t1 :
  Forall (Forall is_byte) Ps ->
  let r :=
    decode __init__
      (data_frame (concat (map (fun P => slip_encode P ++ [END]) Ps)) t0 t1) in
  r.1 = __init__ /\
  frames_of r.2 =
    map (fun P => slip_packet P t0 t1) (List.filter has_bytes Ps) /\
  map packet_fields (frames_of r.2) =
    map (fun P => ("slip_packet", Some (VStr (payload_hex P)),
                   Some (VInt (Z.of_nat (length P)))))
      (List.filter has_bytes Ps) /\
  (forall P Q, Forall is_byte P -> Forall is_byte Q ->
     payload_hex P = payload_hex Q -> P = Q) /\
  map packet_fields
    (frames_of
       (decode __init__
          (data_frame [0x01; END; END; 0xDB; 0xDC; 0x02; END] t0 t1)).2) =
    [("slip_packet", Some (VStr "01"), Some (VInt 1));
     ("slip_packet", Some (VStr "C0 02"), Some (VInt 2))].
Proof.
  intros HPs. cbv zeta.
  rewrite decode_data_state, decode_data_frames by done.
  rewrite byte_spans_data_frame. unfold __init__.
  rewrite decode_spans_frames_any by done. cbn [fst snd app].
  split; [done|]. split; [done|].
  split; [|split].
  - rewrite map_map. apply map_ext. intros P. read_fields.
  - intros P Q HP HQ E. by apply payload_hex_inj.
  - reflexivity.
Qed.
End Lemmas.

(** * The theorems at concrete inputs

    Integer timestamps stand for the host's; bytes are written as the
    analyzer receives them. *)

Section Concrete.

Import ZTime.

(** C1 as stated fails for the empty byte sequence: END, END returns
    no frame at all, where the claim asks for exactly one packet. *)
Lemma round_trip_empty_payload :
  Forall is_byte [] /\ Forall (fun b => b <> END /\ b <> ESC) [] /\
  decode init (data_frame ([END] ++ [] ++ [END]) 10 20) = (init, None) /\
  ~ (exists f, frames_of (decode init
                 (data_frame ([END] ++ [] ++ [END]) 10 20)).2 = [f]).
Proof.
  split; [constructor|]. split; [constructor|]. split; [reflexivity|].
  intros [f Hf]. discriminate Hf.
Qed.

Lemma round_trip_plain_witness :
  Forall is_byte [0x01; 0x02] /\
  Forall (fun b => b <> END /\ b <> ESC) [0x01; 0x02] /\
  [0x01; 0x02] <> [] /\
  decode init (data_frame [END; 0x01; 0x02; END] 10 20) =
    (init, Some [slip_packet [0x01; 0x02] 10 20]).
Proof.
  assert (H1 : Forall is_byte [0x01; 0x02])
    by (repeat constructor; unfold is_byte; lia).
  assert (H2 : Forall (fun b => b <> END /\ b <> ESC) [0x01; 0x02])
    by (repeat constructor; discriminate).
  assert (H3 : [0x01; 0x02] <> ([] : list Z)) by discriminate.
  split; [exact H1|]. split; [exact H2|]. split; [exact H3|].
  exact (proj1 (round_trip_plain [0x01; 0x02] 10 20 H1 H2 H3)).
Defined.

Lemma escape_correctness_witness :
  Forall is_byte [0xC0; 0x01; 0xDB] /\
  (END ∈ [0xC0; 0x01; 0xDB] \/ ESC ∈ [0xC0; 0x01; 0xDB]) /\
  decode init
    (data_frame [END; 0xDB; 0xDC; 0x01; 0xDB; 0xDD; END] 10 20) =
    (init, Some [slip_packet [0xC0; 0x01; 0xDB] 10 20]) /\
  (exists f,
     frames_of
       (decode init
          (data_frame [END; 0xDB; 0xDC; 0x01; 0xDB; 0xDD; END] 10 20)).2 =
       [f] /\
     type f = "slip_packet" /\
     data f !! "payload_hex" = Some (VStr "C0 01 DB") /\
     data f !! "length" = Some (VInt 3)).
Proof.
  assert (H1 : Forall is_byte [0xC0; 0x01; 0xDB])
    by (repeat constructor; unfold is_byte; lia).
  assert (H2 : END ∈ [0xC0; 0x01; 0xDB] \/ ESC ∈ [0xC0; 0x01; 0xDB])
    by (left; apply list_elem_of_here).
  split; [exact H1|]. split; [exact H2|].
  split.
  - exact (proj1 (escape_correctness [0xC0; 0x01; 0xDB] 10 20 H1 H2)).
  - exact (proj1 (proj2 (proj2
             (escape_correctness [0xC0; 0x01; 0xDB] 10 20 H1 H2)))).
Defined.

Lemma error_recovery_witness :
  escape (Build_Hla true [0x07] (Some 5)) = true /\
  0x55 <> ESC_END /\ 0x55 <> ESC_ESC /\
  decode_byte (Build_Hla true [0x07] (Some 5), []) (0x55, 10, 20) =
    (_reset_state,
     [Build_AnalyzerFrame "slip_error" 5 20
        (error_data invalid_escape_message 0x55)]).
Proof.
  assert (H1 : escape (Build_Hla true [0x07] (Some 5)) = true)
    by reflexivity.
  assert (H2 : 0x55 <> ESC_END) by discriminate.
  assert (H3 : 0x55 <> ESC_ESC) by discriminate.
  split; [exact H1|]. split; [exact H2|]. split; [exact H3|].
  exact (proj1 (error_recovery (Build_Hla true [0x07] (Some 5)) []
                  0x55 10 20 H1 H2 H3)).
Defined.

(** C5 as stated fails: the packet frame of END, 0x01, END has no
    field named [payload]. *)
Lemma packet_frame_no_payload_field :
  ~ (forall (self : Hla Z) frame f,
       reachable self -> f ∈ frames_of (decode self frame).2 ->
       type f = "slip_packet" -> is_Some (data f !! "payload")).
Proof.
  intros Hclaim.
  destruct (Hclaim init (data_frame [END; 0x01; END] 10 20)
              (slip_packet [0x01] 10 20)) as [v Hv].
  - apply reachable_init.
  - apply list_elem_of_here.
  - reflexivity.
  - vm_compute in Hv. discriminate Hv.
Qed.

Lemma packet_frame_fields_witness :
  reachable init /\
  slip_packet [0x01] 10 20
    ∈ frames_of (decode init (data_frame [END; 0x01; END] 10 20)).2 /\
  type (slip_packet [0x01] 10 20) = "slip_packet" /\
  (exists pre s e post payload,
    _byte_spans (data_frame [END; 0x01; END] 10 20) =
      pre ++ (END, s, e) :: post /\
    payload = buffer (decode_spans (init, []) pre).1 /\
    escape (decode_spans (init, []) pre).1 = false /\
    payload <> [] /\ Forall is_byte payload /\
    data (slip_packet [0x01] 10 20) !! "payload_hex" =
      Some (VStr (payload_hex payload)) /\
    data (slip_packet [0x01] 10 20) !! "length" =
      Some (VInt (Z.of_nat (length payload))) /\
    String.length (payload_hex payload) = (3 * length payload - 1)%nat /\
    (forall Q, Forall is_byte Q ->
       payload_hex Q = payload_hex payload -> Q = payload) /\
    dom (data (slip_packet [0x01] 10 20)) =
      ({[ "payload_hex"; "length" ]} : gset string) /\
    data (slip_packet [0x01] 10 20) !! "payload" = None) /\
  (forall t0 t1 : Z,
     map packet_fields
       (frames_of
          (decode __init__ (data_frame [END; 0x01; 0xAB; END] t0 t1)).2) =
       [("slip_packet", Some (VStr "01 AB"), Some (VInt 2))]).
Proof.
  assert (H1 : reachable init) by apply reachable_init.
  assert (H2 : slip_packet [0x01] 10 20
            ∈ frames_of (decode init (data_frame [END; 0x01; END] 10 20)).2)
    by apply list_elem_of_here.
  assert (H3 : type (slip_packet [0x01] 10 20) = "slip_packet")
    by reflexivity.
  split; [exact H1|]. split; [exact H2|]. split; [exact H3|].
  exact (packet_frame_fields init (data_frame [END; 0x01; END] 10 20)
           (slip_packet [0x01] 10 20) H1 H2 H3).
Defined.

Lemma multi_packet_chunk_witness :
  Forall (fun P => Forall is_byte P /\ P <> []) [[0x01]; [0xC0; 0x02]] /\
  [[0x01]; [0xC0; 0x02]] <> [] /\
  decode init (data_frame [END; 0x01; END; 0xDB; 0xDC; 0x02; END] 10 20) =
    (init, Some [slip_packet [0x01] 10 20; slip_packet [0xC0; 0x02] 10 20]) /\
  map packet_fields
    (frames_of
       (decode init
          (data_frame [END; 0x01; END; 0xDB; 0xDC; 0x02; END] 10 20)).2) =
    [("slip_packet", Some (VStr "01"), Some (VInt 1));
     ("slip_packet", Some (VStr "C0 02"), Some (VInt 2))].
Proof.
  assert (H1 : Forall (fun P => Forall is_byte P /\ P <> [])
                 [[0x01]; [0xC0; 0x02]])
    by (repeat constructor; unfold is_byte; lia || discriminate).
  assert (H2 : [[0x01]; [0xC0; 0x02]] <> ([] : list (list Z)))
    by discriminate.
  split; [exact H1|]. split; [exact H2|].
  split.
  - exact (proj1 (multi_packet_chunk [[0x01]; [0xC0; 0x02]] 10 20 H1 H2)).
  - exact (proj1 (proj2 (proj2
             (multi_packet_chunk [[0x01]; [0xC0; 0x02]] 10 20 H1 H2)))).
Defined.

Lemma idempotent_boundaries_witness :
  (1 <= 3)%nat /\
  decode init (data_frame [END; END; END] 10 20) = (init, None).
Proof.
  assert (H1 : (1 <= 3)%nat) by lia.
  split; [exact H1|].
  exact (proj1 (idempotent_boundaries 3 10 20 H1)).
Defined.

Lemma no_flush_without_END_witness :
  escape (Build_Hla false [0x07] (Some 5)) = false /\
  Forall is_byte [0x01; 0xC0] /\
  decode (Build_Hla false [0x07] (Some 5))
    (data_frame [0x01; 0xDB; 0xDC] 10 20) =
    (Build_Hla false [0x07; 0x01; 0xC0] (Some 5), None).
Proof.
  assert (H1 : escape (Build_Hla false [0x07] (Some 5)) = false)
    by reflexivity.
  assert (H2 : Forall is_byte [0x01; 0xC0])
    by (repeat constructor; unfold is_byte; lia).
  split; [exact H1|]. split; [exact H2|].
  exact (proj2 (proj2 (no_flush_without_END
                         (Build_Hla false [0x07] (Some 5))
                         [0x01; 0xC0] 10 20 H1 H2))).
Defined.

Lemma non_data_ignored_witness :
  in_type {| in_type := "error"; in_start_time := 10; in_end_time := 20;
             in_data := {[ "data" := [0x01; END] ]} |} <> "data" /\
  decode (Build_Hla true [0x07] (Some 5))
    {| in_type := "error"; in_start_time := 10; in_end_time := 20;
       in_data := {[ "data" := [0x01; END] ]} |} =
    (Build_Hla true [0x07] (Some 5), None).
Proof.
  assert (H1 : in_type {| in_type := "error"; in_start_time := 10;
                          in_end_time := 20;
                          in_data := {[ "data" := [0x01; END] ]} |}
               <> "data") by discriminate.
  split; [exact H1|].
  exact (proj1 (non_data_ignored (Build_Hla true [0x07] (Some 5)) _ H1)).
Defined.

Lemma escape_implies_start_time_witness :
  reachable (decode init (data_frame [0x01; ESC] 10 20)).1 /\
  (escape (decode init (data_frame [0x01; ESC] 10 20)).1 = true ->
   exists t,
     frame_start_time (decode init (data_frame [0x01; ESC] 10 20)).1 =
       Some t).
Proof.
  assert (H1 : reachable (decode init (data_frame [0x01; ESC] 10 20)).1)
    by (apply reachable_decode, reachable_init).
  split; [exact H1|].
  exact (proj1 (escape_implies_start_time _ H1)).
Defined.

End Concrete.

(** * The further properties at concrete inputs *)

Section MoreConcrete.

Import ZTime.

Lemma decode_no_bytes_witness :
  in_type {| in_type := "data"; in_start_time := 10; in_end_time := 20;
             in_data := (∅ : gmap string (list Z)) |} = "data" /\
  decode (Build_Hla true [0x07] (Some 5))
    {| in_type := "data"; in_start_time := 10; in_end_time := 20;
       in_data := ∅ |} =
    (Build_Hla true [0x07] (Some 5), None).
Proof.
  assert (H1 : in_type {| in_type := "data"; in_start_time := 10;
                          in_end_time := 20;
                          in_data := (∅ : gmap string (list Z)) |} = "data")
    by reflexivity.
  split; [exact H1|].
  exact (proj2 (decode_no_bytes (Build_Hla true [0x07] (Some 5)) _ H1
                  (or_introl (lookup_empty _)))).
Defined.

Lemma state_invariant_witness :
  reachable init /\
  Forall is_byte
    (buffer (decode_spans (init, []) [(0x1C0, 10, 20); (ESC, 10, 20)]).1).
Proof.
  assert (H1 : reachable init) by apply reachable_init.
  split; [exact H1|].
  exact (proj1 (state_invariant init [(0x1C0, 10, 20); (ESC, 10, 20)] H1)).
Defined.

Lemma wide_values_masked_witness :
  Forall (fun b => b <> END /\ b <> ESC) [0x1C0; -1; 0x2DB] /\
  [0x1C0; -1; 0x2DB] <> [] /\
  decode init (data_frame [END; 0x1C0; -1; 0x2DB; END] 10 20) =
    (init, Some [slip_packet [0xC0; 0xFF; 0xDB] 10 20]) /\
  (exists f,
     frames_of
       (decode init (data_frame [END; 0x1C0; -1; 0x2DB; END] 10 20)).2 =
       [f] /\
     type f = "slip_packet" /\
     data f !! "payload_hex" = Some (VStr "C0 FF DB") /\
     data f !! "length" = Some (VInt 3)).
Proof.
  assert (H1 : Forall (fun b => b <> END /\ b <> ESC) [0x1C0; -1; 0x2DB])
    by (repeat constructor; discriminate).
  assert (H2 : [0x1C0; -1; 0x2DB] <> ([] : list Z)) by discriminate.
  split; [exact H1|]. split; [exact H2|].
  split.
  - exact (proj1 (wide_values_masked [0x1C0; -1; 0x2DB] 10 20 H1 H2)).
  - exact (proj1 (proj2 (proj2
             (wide_values_masked [0x1C0; -1; 0x2DB] 10 20 H1 H2)))).
Defined.


Lemma returned_frame_span_witness :
  slip_packet [0x07; 0x01] 5 20
    ∈ frames_of (decode (Build_Hla false [0x07] (Some 5))
                   (data_frame [0x01; END] 10 20)).2 /\
  end_time (slip_packet [0x07; 0x01] 5 20) = 20 /\
  (start_time (slip_packet [0x07; 0x01] 5 20) = 20 \/
   start_time (slip_packet [0x07; 0x01] 5 20) = 10 \/
   Some 5 = Some (start_time (slip_packet [0x07; 0x01] 5 20))).
Proof.
  assert (H1 : slip_packet [0x07; 0x01] 5 20
            ∈ frames_of (decode (Build_Hla false [0x07] (Some 5))
                           (data_frame [0x01; END] 10 20)).2)
    by apply list_elem_of_here.
  split; [exact H1|].
  exact (returned_frame_span (Build_Hla false [0x07] (Some 5))
           (data_frame [0x01; END] 10 20) _ H1).
Defined.

Lemma error_discards_buffer_witness :
  Forall is_byte [0x01; 0x02] /\ Forall is_byte [0x03] /\
  END <> ESC_END /\ END <> ESC_ESC /\
  decode init
    (data_frame [END; 0x01; 0x02; ESC; END; 0x03; END] 10 20) =
    (init, Some [slip_error END 10 20; slip_packet [0x03] 10 20]) /\
  (exists err rest,
     frames_of
       (decode init
          (data_frame [END; 0x01; 0x02; ESC; END; 0x03; END] 10 20)).2 =
       err :: rest /\
     error_fields err =
       ("slip_error", Some (VStr "Invalid escape sequence after 0xDB"),
        Some (VInt 0xC0)) /\
     map packet_fields rest =
       [("slip_packet", Some (VStr "03"), Some (VInt 1))]).
Proof.
  assert (H1 : Forall is_byte [0x01; 0x02])
    by (repeat constructor; unfold is_byte; lia).
  assert (H2 : Forall is_byte [0x03])
    by (repeat constructor; unfold is_byte; lia).
  assert (H3 : END <> ESC_END) by discriminate.
  assert (H4 : END <> ESC_ESC) by discriminate.
  split; [exact H1|]. split; [exact H2|]. split; [exact H3|].
  split; [exact H4|].
  split.
  - exact (proj1 (error_discards_buffer [0x01; 0x02] [0x03] END 10 20
                    H1 H2 H3 H4)).
  - exact (proj1 (proj2 (error_discards_buffer [0x01; 0x02] [0x03] END 10 20
                           H1 H2 H3 H4))).
Defined.

Lemma result_types_fields_witness :
  reachable init /\
  slip_error 0x55 10 20
    ∈ frames_of (decode init (data_frame [ESC; 0x55] 10 20)).2 /\
  exists fmt,
    result_types !! type (slip_error 0x55 10 20)
      ≫= (fun entry => entry !! "format") = Some fmt /\
    (forall k, k ∈ dom (data (slip_error 0x55 10 20)) ->
       names_field fmt k = true) /\
    count_occurs "{{data." fmt = size (dom (data (slip_error 0x55 10 20))).
Proof.
  assert (H1 : reachable init) by apply reachable_init.
  assert (H2 : slip_error 0x55 10 20
            ∈ frames_of (decode init (data_frame [ESC; 0x55] 10 20)).2)
    by apply list_elem_of_here.
  split; [exact H1|]. split; [exact H2|].
  exact (result_types_fields init (data_frame [ESC; 0x55] 10 20) _ H1 H2).
Defined.

Lemma payload_hex_rendering_witness :
  Forall is_byte [0x01; 0xFF] /\ Forall is_byte [0x1F; 0xF0] /\
  String.length (payload_hex [0x01; 0xFF]) = 5%nat /\
  (payload_hex [0x01; 0xFF] = payload_hex [0x1F; 0xF0] <->
   [0x01; 0xFF] = [0x1F; 0xF0]).
Proof.
  assert (H1 : Forall is_byte [0x01; 0xFF])
    by (repeat constructor; unfold is_byte; lia).
  assert (H2 : Forall is_byte [0x1F; 0xF0])
    by (repeat constructor; unfold is_byte; lia).
  split; [exact H1|]. split; [exact H2|].
  exact (proj2 (payload_hex_rendering [0x01; 0xFF] [0x1F; 0xF0] H1 H2)).
Defined.

Lemma empty_packets_dropped_witness :
  Forall (Forall is_byte) [[0x01]; []; [0xC0]] /\
  frames_of (decode init
               (data_frame [0x01; END; END; 0xDB; 0xDC; END] 10 20)).2 =
    [slip_packet [0x01] 10 20; slip_packet [0xC0] 10 20] /\
  map packet_fields
    (frames_of (decode init
                  (data_frame [0x01; END; END; 0xDB; 0xDC; END] 10 20)).2) =
    [("slip_packet", Some (VStr "01"), Some (VInt 1));
     ("slip_packet", Some (VStr "C0"), Some (VInt 1))].
Proof.
  assert (H1 : Forall (Forall is_byte) [[0x01]; []; [0xC0]])
    by (repeat constructor; unfold is_byte; lia).
  split; [exact H1|].
  split.
  - exact (proj1 (proj2 (empty_packets_dropped [[0x01]; []; [0xC0]] 10 20
                           H1))).
  - exact (proj1 (proj2 (proj2
             (empty_packets_dropped [[0x01]; []; [0xC0]] 10 20 H1)))).
Defined.

End MoreConcrete.
